(** * Resilience policy engine: a shallow embedding of [withResilience]

    The development follows packages/resilience/src:
    - errors.ts      : the error classes and their messages ([JsError], [message]);
    - defaults.ts    : the default retry filter ([isRetryableError]);
    - types.ts       : option records and default constants;
    - policies.ts    : the policy factories and [composePolicies];
    - resilience.ts  : [transformCockatielError], [executeWithFallback] and
                       the wrapped function built by [withResilience].

    The executors of the cockatiel library (retry loop, backoff, bulkhead
    admission, policy nesting) are not part of the sources; they live in
    [Module Cockatiel] and follow sections 4.2 to 4.5 of the specification of
    the engine.  The timeout executor races the inner execution against a
    wall-clock timer and is kept as a parameter. *)

From Stdlib Require Import ZArith NArith List String Ascii Bool Lia.
From Stdlib Require Import DecimalString.
Import ListNotations.

Set Warnings "-register-all".

Local Open Scope string_scope.
Local Open Scope Z_scope.

(** ** Strings as the source uses them *)

Module JsString.

(** [`${n}`] for an integral JS number. *)
Definition ofZ (n : Z) : string := NilZero.string_of_int (Z.to_int n).

Definition ofNat (n : nat) : string := ofZ (Z.of_nat n).

(** [hay.includes(needle)] *)
Fixpoint includes (hay needle : string) : bool :=
  String.prefix needle hay ||
  match hay with
  | EmptyString => false
  | String _ rest => includes rest needle
  end.

Definition lowerAscii (c : ascii) : ascii :=
  let n := nat_of_ascii c in
  if (Nat.leb 65 n && Nat.leb n 90)%bool then ascii_of_nat (n + 32) else c.

(** [s.toLowerCase()] on ASCII text. *)
Fixpoint toLowerCase (s : string) : string :=
  match s with
  | EmptyString => EmptyString
  | String c rest => String (lowerAscii c) (toLowerCase rest)
  end.

Fixpoint chars (s : string) : list ascii :=
  match s with
  | EmptyString => []
  | String c rest => c :: chars rest
  end.

End JsString.

(** ** Values and thrown errors *)

(** Plain data carried as a property of an object: [undefined], [null],
    booleans, integral numbers, strings and objects with own properties. *)
Inductive PropVal : Type :=
| PUndefined
| PNull
| PBool (b : bool)
| PNumber (n : Z)
| PString (s : string)
| PObject (fields : list (string * PropVal)).

Definition Props := list (string * PropVal).

(** [key in obj] *)
Fixpoint hasKey (key : string) (ps : Props) : bool :=
  match ps with
  | [] => false
  | (k, _) :: rest => if String.eqb key k then true else hasKey key rest
  end.

(** [obj[key]], [undefined] when the key is absent *)
Fixpoint getKey (key : string) (ps : Props) : PropVal :=
  match ps with
  | [] => PUndefined
  | (k, v) :: rest => if String.eqb key k then v else getKey key rest
  end.

(** A thrown value that is not an [Error] instance.  Thrown [null] and
    [undefined] are left out. *)
Inductive NonErrorValue : Type :=
| NEBool (b : bool)
| NENumber (n : Z)
| NEString (s : string)
| NEObject (fields : Props).

(** What a promise can reject with.  The classes of errors.ts carry their
    constructor arguments; a [PlainError] is an [Error] instance of any other
    class, with the properties attached to it ([status], [code], ...).  The
    two cockatiel classes are the ones policies.ts re-exports
    ([TaskCancelledError] under the name [CockatielTimeoutError]). *)
Inductive JsError : Type :=
| PlainError (msg : string) (props : Props)
| CockatielBulkheadRejectedError (msg : string)
| CockatielTimeoutError (msg : string)
| ResilienceError (msg : string) (cause : option JsError)
| RetryExhaustedError (attempts : Z) (lastError : JsError)
| TimeoutError (duration : Z)
| BulkheadRejectedError (queueSize maxQueue : Z)
| NonError (v : NonErrorValue).

(** [error instanceof Error] *)
Definition instanceofError (e : JsError) : bool :=
  match e with
  | NonError _ => false
  | _ => true
  end.

Definition instanceofCockatielBulkheadRejectedError (e : JsError) : bool :=
  match e with
  | CockatielBulkheadRejectedError _ => true
  | _ => false
  end.

Definition instanceofCockatielTimeoutError (e : JsError) : bool :=
  match e with
  | CockatielTimeoutError _ => true
  | _ => false
  end.

(** The four kinds of the taxonomy of errors.ts: every class there derives
    from [ResilienceError]. *)
Definition instanceofResilienceError (e : JsError) : bool :=
  match e with
  | ResilienceError _ _ | RetryExhaustedError _ _
  | TimeoutError _ | BulkheadRejectedError _ _ => true
  | _ => false
  end.

(** Properties other than the fields of the classes above.  None of the
    class fields is named [status], [statusCode], [response] or [code]. *)
Definition ownProps (e : JsError) : Props :=
  match e with
  | PlainError _ props => props
  | NonError (NEObject fields) => fields
  | _ => []
  end.

(** [error.message] of an [Error] instance, as the constructors of errors.ts
    build it. *)
Fixpoint message (e : JsError) : string :=
  match e with
  | PlainError msg _ => msg
  | CockatielBulkheadRejectedError msg => msg
  | CockatielTimeoutError msg => msg
  | ResilienceError msg _ => msg
  | RetryExhaustedError attempts lastError =>
      "Retry exhausted after " ++ JsString.ofZ attempts ++ " attempts: "
        ++ message lastError
  | TimeoutError duration =>
      "Operation timed out after " ++ JsString.ofZ duration ++ "ms"
  | BulkheadRejectedError queueSize maxQueue =>
      "Bulkhead queue full: " ++ JsString.ofZ queueSize ++ "/"
        ++ JsString.ofZ maxQueue ++ " requests queued"
  | NonError (NEObject fields) =>
      match getKey "message" fields with
      | PString s => s
      | _ => "undefined"
      end
  | NonError _ => "undefined"
  end.

(** The value of the expression [error.message], as handed to the logger. *)
Definition messageProp (e : JsError) : PropVal :=
  match e with
  | NonError (NEObject fields) => getKey "message" fields
  | NonError _ => PUndefined
  | _ => PString (message e)
  end.

(** ** defaults.ts: the default error filter *)

(** HTTP status codes that should NOT trigger a retry *)
Definition NON_RETRYABLE_STATUS_CODES : list Z := [400; 401; 403; 404; 422].

(** Network error codes that should trigger a retry *)
Definition NETWORK_ERROR_CODES : list string :=
  ["ECONNRESET"; "ETIMEDOUT"; "ECONNREFUSED"; "ENETUNREACH"].

(** [NON_RETRYABLE_STATUS_CODES.has(status)] *)
Definition nonRetryableStatus (status : Z) : bool :=
  existsb (Z.eqb status) NON_RETRYABLE_STATUS_CODES.

(** [NETWORK_ERROR_CODES.includes(code)] *)
Definition networkErrorCode (code : string) : bool :=
  existsb (String.eqb code) NETWORK_ERROR_CODES.

Definition isHttpError (error : JsError) : bool :=
  if instanceofError error then
    hasKey "status" (ownProps error) || hasKey "statusCode" (ownProps error)
      || hasKey "response" (ownProps error)
  else false.

(** [error && typeof error === 'object'] *)
Definition isObject (error : JsError) : bool :=
  match error with
  | NonError (NEObject _) => true
  | NonError _ => false
  | _ => true
  end.

Definition getStatusCode (error : JsError) : option Z :=
  if isObject error then
    let ps := ownProps error in
    match hasKey "status" ps, getKey "status" ps with
    | true, PNumber status => Some status
    | _, _ =>
      match hasKey "statusCode" ps, getKey "statusCode" ps with
      | true, PNumber statusCode => Some statusCode
      | _, _ =>
        match hasKey "response" ps, getKey "response" ps with
        | true, PObject response =>
            match hasKey "status" response, getKey "status" response with
            | true, PNumber status => Some status
            | _, _ => None
            end
        | _, _ => None
        end
      end
    end
  else None.

(** The test [code && NETWORK_ERROR_CODES.includes(code)] of [isNetworkError]. *)
Definition hasNetworkErrorCode (error : JsError) : bool :=
  match getKey "code" (ownProps error) with
  | PString code => networkErrorCode code
  | _ => false
  end.

(** The test on [error.message.toLowerCase()] of [isNetworkError]. *)
Definition hasNetworkMessage (error : JsError) : bool :=
  let message := JsString.toLowerCase (message error) in
  JsString.includes message "fetch failed" || JsString.includes message "network".

Definition isNetworkError (error : JsError) : bool :=
  if instanceofError error then
    if hasNetworkErrorCode error then true
    else if hasNetworkMessage error then true
    else false
  else false.

Definition isRetryableError (error : JsError) : bool :=
  let decided :=
    if isHttpError error then
      match getStatusCode error with
      | Some status =>
          if nonRetryableStatus status then Some false
          else if 500 <=? status then Some true
          else None
      | None => None
      end
    else None in
  match decided with
  | Some answer => answer
  | None => if isNetworkError error then true else false
  end.

(** The helpers of the test files. *)
Definition createHttpError (status : Z) : JsError :=
  PlainError ("HTTP Error " ++ JsString.ofZ status) [("status", PNumber status)].

Definition createNetworkError (code : string) : JsError :=
  PlainError ("Network error: " ++ code) [("code", PString code)].

(** ** types.ts: options, events and defaults *)

Inductive BackoffKind : Type := exponential | fixed.

(** Retry delays are durations in milliseconds and are kept in [N]; the other
    numbers of the configuration are integral JS numbers. *)
Record RetryOptions : Type := {
  attempts : option Z;
  delay : option N;
  maxDelay : option N;
  backoff : option BackoffKind;
  jitter : option bool;
  shouldRetry : option (JsError -> bool)
}.

Record BulkheadOptions : Type := {
  maxConcurrent : option Z;
  maxQueue : option Z
}.

(** Which callbacks of [ResilienceMetrics] are supplied. *)
Record ResilienceMetrics : Type := {
  onRetry : bool;
  onSuccess : bool;
  onFailure : bool;
  onBulkheadRejected : bool;
  onTimeout : bool
}.

Inductive LogLevel : Type := LDebug | LInfo | LWarn | LError.

(** What the callbacks and the logger observe.  The [duration] fields measured
    with [Date.now()] are not traced. *)
Inductive Event : Type :=
| Logged (level : LogLevel) (msg : string) (meta : Props)
| RetryEvent (attempt maxAttempts : Z) (error : JsError) (delay : N)
             (name : option string)
| SuccessEvent (attempts : nat) (name : option string)
| FailureEvent (attempts : nat) (error : JsError) (name : option string)
| BulkheadEvent (queueSize maxQueue : Z) (name : option string)
| TimeoutEvent (duration : Z) (name : option string).

Module RETRY_DEFAULTS.
Definition attempts : Z := 3.
Definition delay : N := 200%N.
Definition maxDelay : N := 10000%N.
Definition backoff : BackoffKind := exponential.
Definition jitter : bool := true.
End RETRY_DEFAULTS.

Module BULKHEAD_DEFAULTS.
Definition maxConcurrent : Z := 10.
Definition maxQueue : Z := 100.
End BULKHEAD_DEFAULTS.

Definition TIMEOUT_DEFAULT : Z := 30000.

(** [a ?? b] *)
Definition nullish {A : Type} (a : option A) (b : A) : A :=
  match a with
  | Some x => x
  | None => b
  end.

Notation "a ?? b" := (nullish a b) (at level 45, right associativity).

(** ** Promises, values and the state of one wrapped handle *)

(** A value an operation resolves with or a fallback is configured as: plain
    data, or a function from the error to a settled (or pending) promise.
    [Pending] is a promise that never settles. *)
Inductive JsVal : Type :=
| VPlain (d : PropVal)
| VFunction (f : JsError -> Outcome)
with Outcome : Type :=
| Resolved (v : JsVal)
| Rejected (e : JsError)
| Pending.

(** [fallback === undefined] *)
Definition isUndefined (v : JsVal) : bool :=
  match v with
  | VPlain PUndefined => true
  | _ => false
  end.

Record ResilienceOptions : Type := {
  name : option string;
  retry : option RetryOptions;
  bulkhead : option BulkheadOptions;
  timeout : option Z;
  fallback : JsVal;
  logger : bool;
  metrics : option ResilienceMetrics
}.

(** The state of the bulkhead of one wrapped handle: the number of running
    executions and the tickets of the callers waiting for a slot, oldest
    first. *)
Record BulkheadState : Type := {
  inFlight : nat;
  queue : list nat;
  nextTicket : nat
}.

(** [attemptCount] is the counter of the closure of one call, [trace] what the
    logger and the metrics callbacks have received so far. *)
Record State : Type := {
  attemptCount : nat;
  trace : list Event;
  bulkheadState : BulkheadState
}.

Definition emit (evs : list Event) (s : State) : State :=
  {| attemptCount := attemptCount s;
     trace := (trace s ++ evs)%list;
     bulkheadState := bulkheadState s |}.

Definition setBulkhead (b : BulkheadState) (s : State) : State :=
  {| attemptCount := attemptCount s;
     trace := trace s;
     bulkheadState := b |}.

(** An asynchronous computation: it runs on a state and leaves a promise. *)
Definition Comp : Type := State -> Outcome * State.

(** [IPolicy]: [policy.execute(fn)] *)
Definition IPolicy : Type := Comp -> Comp.

Definition nameProp (name : option string) : PropVal :=
  match name with
  | Some n => PString n
  | None => PUndefined
  end.

(** [logger?.level(msg, meta)] *)
Definition logWith (logger : bool) (level : LogLevel) (msg : string)
    (meta : Props) : list Event :=
  if logger then [Logged level msg meta] else [].

(** [metrics?.callback?.(event)] *)
Definition notify (metrics : option ResilienceMetrics)
    (callback : ResilienceMetrics -> bool) (event : Event) : list Event :=
  match metrics with
  | Some m => if callback m then [event] else []
  | None => []
  end.

(** ** The executors of the cockatiel library *)

Module Cockatiel.

(** The generator policies.ts passes when jitter is off; no generator
    stands for the jittered default of the library. *)
Inductive Generator : Type := noJitterGenerator.

Inductive Backoff : Type :=
| ExponentialBackoff (initialDelay maxDelay : N) (generator : option Generator)
| ConstantBackoff (duration : N).

(** Modelled from the spec: the delay schedule of cockatiel's backoff
    classes, which is not in the sources.  Section 4.2: exponential is
    [min(baseDelay * 2^(attempt-1), maxDelay)], fixed is [baseDelay];
    [attempt] is the 1-indexed attempt that has just failed. *)
Definition computedDelay (b : Backoff) (attempt : nat) : N :=
  match b with
  | ExponentialBackoff initialDelay maxDelay _ =>
      N.min (initialDelay * 2 ^ N.of_nat (attempt - 1)) maxDelay
  | ConstantBackoff duration => duration
  end.

(** Modelled from the spec: the jitter of cockatiel's default generator,
    which is not in the sources.  Section 4.2: with jitter the realized
    delay is a random value derived from the computed delay and not
    exceeding it, else the computed delay is used exactly.  [draw] is the
    random number drawn for this retry. *)
Definition realizedDelay (b : Backoff) (attempt : nat) (draw : N) : N :=
  match b with
  | ExponentialBackoff _ _ None => (draw mod (computedDelay b attempt + 1))%N
  | _ => computedDelay b attempt
  end.

(** The listeners a retry policy is wired with ([onRetry], [onFailure],
    [onSuccess]); each returns what its body logs and reports. *)
Record RetryListeners : Type := {
  retryListener : JsError -> N -> nat -> list Event;
  failureListener : JsError -> list Event;
  successListener : list Event
}.

(** Modelled from the spec: the retry loop of cockatiel's [retry], which
    is not in the sources.  Section 4.2: invoke the operation; on success
    terminate; on failure consult the classifier and terminate when the
    error is not retryable or the attempt count has reached [maxAttempts];
    otherwise compute the delay, emit the retry event and attempt again
    with the next index.  [retriesLeft] is [maxAttempts - attempt].  On
    termination the loop rejects with the last error of the operation: the
    library cannot build the [RetryExhaustedError] of this package, and
    [transformCockatielError] takes the error it catches as [lastError]. *)
Fixpoint retryLoop (handles : JsError -> bool) (backoff : Backoff)
    (listeners : RetryListeners) (random : nat -> N)
    (retriesLeft attempt : nat) (fn : Comp) (s : State) : Outcome * State :=
  match fn s with
  | (Resolved v, s1) => (Resolved v, emit (successListener listeners) s1)
  | (Pending, s1) => (Pending, s1)
  | (Rejected e, s1) =>
      let s2 := emit (failureListener listeners e) s1 in
      if handles e then
        match retriesLeft with
        | O => (Rejected e, s2)
        | S retriesLeft' =>
            let d := realizedDelay backoff attempt (random attempt) in
            retryLoop handles backoff listeners random retriesLeft'
              (S attempt) fn (emit (retryListener listeners e d attempt) s2)
        end
      else (Rejected e, s2)
  end.

(** [retry(handleWhen(handles), { maxAttempts, backoff })] *)
Definition retry (handles : JsError -> bool) (maxAttempts : Z)
    (backoff : Backoff) (listeners : RetryListeners) (random : nat -> N)
    : IPolicy :=
  fun fn s =>
    retryLoop handles backoff listeners random
      (Z.to_nat (maxAttempts - 1)) 1 fn s.

Inductive Admission : Type := Granted | Queued | Refused.

(** Modelled from the spec: the admission step of cockatiel's bulkhead,
    which is not in the sources.  Section 4.3: admit when
    [inFlight < maxConcurrent]; else enqueue the caller when the queue is
    shorter than [maxQueueDepth]; else reject. *)
Definition acquire (maxConcurrent maxQueueDepth : Z) (b : BulkheadState)
    : Admission * BulkheadState :=
  if Z.of_nat (inFlight b) <? maxConcurrent then
    (Granted,
     {| inFlight := S (inFlight b); queue := queue b;
        nextTicket := nextTicket b |})
  else if Z.of_nat (List.length (queue b)) <? maxQueueDepth then
    (Queued,
     {| inFlight := inFlight b; queue := (queue b ++ [nextTicket b])%list;
        nextTicket := S (nextTicket b) |})
  else (Refused, b).

(** Modelled from the spec: the release step of cockatiel's bulkhead.
    Section 4.3: decrement [inFlight]; when the queue is not empty, dequeue
    the oldest waiter and admit it. *)
Definition release (b : BulkheadState) : BulkheadState :=
  match queue b with
  | [] =>
      {| inFlight := pred (inFlight b); queue := [];
         nextTicket := nextTicket b |}
  | _ :: waiting =>
      {| inFlight := S (pred (inFlight b)); queue := waiting;
         nextTicket := nextTicket b |}
  end.

(** Modelled from the spec: the executor of cockatiel's [bulkhead], which is
    not in the sources.  Section 4.3: an admitted call runs and releases its
    slot when it settles; a queued call stays pending until a release admits
    it (the run of the waiter belongs to its own call and is not replayed
    here); a refused call fires the rejection listener and rejects at
    once. *)
Definition bulkhead (maxConcurrent maxQueue : Z) (rejectListener : list Event)
    : IPolicy :=
  fun fn s =>
    match acquire maxConcurrent maxQueue (bulkheadState s) with
    | (Granted, b) =>
        match fn (setBulkhead b s) with
        | (Pending, s1) => (Pending, s1)
        | (settled, s1) => (settled, setBulkhead (release (bulkheadState s1)) s1)
        end
    | (Queued, b) => (Pending, setBulkhead b s)
    | (Refused, _) =>
        (Rejected (CockatielBulkheadRejectedError "Bulkhead capacity exceeded"),
         emit rejectListener s)
    end.

(** Modelled from the spec: cockatiel's [wrap].  Section 4.5: the first
    policy is the outermost, each one executes the next. *)
Definition wrap (policies : list IPolicy) : IPolicy :=
  fun fn => fold_right (fun (policy : IPolicy) inner => policy inner) fn policies.

End Cockatiel.

(** ** policies.ts: the policy factories *)

Section Policies.

(** cockatiel's [timeout(ms, TimeoutStrategy.Aggressive)] with its
    [onTimeout] listener: whether the deadline passes first is a matter of
    wall-clock time. *)
Variable timeoutExecutor : Z -> list Event -> IPolicy.

(** The random numbers drawn for the jitter of each retry. *)
Variable random : nat -> N.

Record RetryPolicyConfig : Type := {
  rp_attempts : Z;
  rp_delay : N;
  rp_maxDelay : N;
  rp_backoff : BackoffKind;
  rp_jitter : bool;
  rp_shouldRetry : JsError -> bool;
  rp_logger : bool;
  rp_metrics : option ResilienceMetrics;
  rp_name : option string
}.

Definition backoffGenerator (config : RetryPolicyConfig) : Cockatiel.Backoff :=
  match rp_backoff config with
  | exponential =>
      Cockatiel.ExponentialBackoff (rp_delay config) (rp_maxDelay config)
        (if rp_jitter config then None else Some Cockatiel.noJitterGenerator)
  | fixed => Cockatiel.ConstantBackoff (rp_delay config)
  end.

Definition retryListeners (config : RetryPolicyConfig) : Cockatiel.RetryListeners :=
  {| Cockatiel.retryListener := fun error delay attempt =>
       (logWith (rp_logger config) LWarn
          ("Retry attempt " ++ JsString.ofNat attempt ++ "/"
             ++ JsString.ofZ (rp_attempts config))
          [("error", messageProp error); ("delay", PNumber (Z.of_N delay));
           ("operation", nameProp (rp_name config))]
        ++ notify (rp_metrics config) onRetry
             (RetryEvent (Z.of_nat attempt) (rp_attempts config) error delay
                (rp_name config)))%list;
     Cockatiel.failureListener := fun error =>
       logWith (rp_logger config) LDebug "Operation failed"
         [("error", messageProp error); ("operation", nameProp (rp_name config))];
     Cockatiel.successListener :=
       logWith (rp_logger config) LDebug "Operation succeeded"
         [("operation", nameProp (rp_name config))] |}.

Definition createRetryPolicy (config : RetryPolicyConfig) : IPolicy :=
  Cockatiel.retry (rp_shouldRetry config) (rp_attempts config)
    (backoffGenerator config) (retryListeners config) random.

Definition createBulkheadPolicy (maxConcurrent maxQueue : Z) (logger : bool)
    (metrics : option ResilienceMetrics) (name : option string) : IPolicy :=
  Cockatiel.bulkhead maxConcurrent maxQueue
    (logWith logger LWarn "Bulkhead rejected request - queue full"
       [("queueSize", PNumber maxQueue); ("maxQueue", PNumber maxQueue);
        ("operation", nameProp name)]
     ++ notify metrics onBulkheadRejected (BulkheadEvent maxQueue maxQueue name))%list.

Definition createTimeoutPolicy (timeoutMs : Z) (logger : bool)
    (metrics : option ResilienceMetrics) (name : option string) : IPolicy :=
  timeoutExecutor timeoutMs
    (logWith logger LWarn "Operation timed out"
       [("timeout", PNumber timeoutMs); ("operation", nameProp name)]
     ++ notify metrics onTimeout (TimeoutEvent timeoutMs name))%list.

Definition composePolicies (policies : list IPolicy) : IPolicy :=
  match policies with
  | [] => fun fn => fn
  | [policy] => policy
  | _ => Cockatiel.wrap policies
  end.

End Policies.

(** ** resilience.ts *)

(** The [config] argument of [transformCockatielError]. *)
Record ErrorConfig : Type := {
  cfgTimeout : option Z;
  cfgMaxQueue : option Z;
  cfgAttempts : option Z
}.

Definition transformCockatielError (error : JsError) (config : ErrorConfig)
    : JsError :=
  if instanceofCockatielBulkheadRejectedError error then
    BulkheadRejectedError (cfgMaxQueue config ?? 0) (cfgMaxQueue config ?? 0)
  else if instanceofCockatielTimeoutError error then
    TimeoutError (cfgTimeout config ?? 0)
  else if instanceofError error && JsString.includes (message error) "retry" then
    RetryExhaustedError (cfgAttempts config ?? 0) error
  else error.

(** [{ ...errorConfig, attempts: 0 }] *)
Definition fallbackErrorConfig (errorConfig : option (Z * Z)) : ErrorConfig :=
  match errorConfig with
  | Some (timeout, maxQueue) =>
      {| cfgTimeout := Some timeout; cfgMaxQueue := Some maxQueue;
         cfgAttempts := Some 0 |}
  | None =>
      {| cfgTimeout := None; cfgMaxQueue := None; cfgAttempts := Some 0 |}
  end.

(** [logger?.warn(`Falling back after error`, ...)] *)
Definition fallbackWarning (logger : bool) (name : option string)
    (transformedError : JsError) : list Event :=
  logWith logger LWarn "Falling back after error"
    [("operation", nameProp name); ("error", messageProp transformedError)].

Definition executeWithFallback (execute : Comp) (fallback : JsVal)
    (logger : bool) (name : option string) (errorConfig : option (Z * Z))
    : Comp :=
  fun s =>
    match execute s with
    | (Rejected error, s1) =>
        let transformedError :=
          transformCockatielError error (fallbackErrorConfig errorConfig) in
        if isUndefined fallback then (Rejected transformedError, s1)
        else
          let s2 := emit (fallbackWarning logger name transformedError) s1 in
          match fallback with
          | VFunction f => (f transformedError, s2)
          | VPlain _ => (Resolved fallback, s2)
          end
    | settledOrPending => settledOrPending
    end.

(** [bulkhead?.maxQueue ?? BULKHEAD_DEFAULTS.maxQueue] *)
Definition configuredMaxQueue (options : ResilienceOptions) : Z :=
  match bulkhead options with
  | Some b => maxQueue b ?? BULKHEAD_DEFAULTS.maxQueue
  | None => BULKHEAD_DEFAULTS.maxQueue
  end.

(** [retry?.attempts ?? RETRY_DEFAULTS.attempts] *)
Definition configuredAttempts (options : ResilienceOptions) : Z :=
  match retry options with
  | Some r => attempts r ?? RETRY_DEFAULTS.attempts
  | None => RETRY_DEFAULTS.attempts
  end.

(** The configuration the [catch] block of the wrapped function passes to
    [transformCockatielError]. *)
Definition failureErrorConfig (options : ResilienceOptions) : ErrorConfig :=
  {| cfgTimeout := Some (timeout options ?? TIMEOUT_DEFAULT);
     cfgMaxQueue := Some (configuredMaxQueue options);
     cfgAttempts := Some (configuredAttempts options) |}.

(** [executeWithTracking]: count the attempt, then call [fn(...args)].  [fn k]
    is what the operation does on its invocation number [k] (from 0) within
    this call. *)
Definition executeWithTracking (fn : nat -> Outcome) : Comp :=
  fun s =>
    (fn (attemptCount s),
     {| attemptCount := S (attemptCount s); trace := trace s;
        bulkheadState := bulkheadState s |}).

(** [let attemptCount = 0] at the start of a call. *)
Definition startCall (s : State) : State :=
  {| attemptCount := 0; trace := trace s; bulkheadState := bulkheadState s |}.

(** What the wrapped function reports when it resolves, and when it rejects
    with [transformedError]. *)
Definition successReport (options : ResilienceOptions) (attemptCount : nat)
    : list Event :=
  (notify (metrics options) onSuccess (SuccessEvent attemptCount (name options))
   ++ logWith (logger options) LInfo "Operation completed successfully"
        [("operation", nameProp (name options));
         ("attempts", PNumber (Z.of_nat attemptCount))])%list.

Definition failureReport (options : ResilienceOptions) (attemptCount : nat)
    (transformedError : JsError) : list Event :=
  (notify (metrics options) onFailure
     (FailureEvent attemptCount transformedError (name options))
   ++ logWith (logger options) LError "Operation failed"
        [("operation", nameProp (name options));
         ("attempts", PNumber (Z.of_nat attemptCount));
         ("error", messageProp transformedError)])%list.

(** The function [withResilience] returns, for a composed policy. *)
Definition wrappedOperation (fn : nat -> Outcome) (options : ResilienceOptions)
    (composedPolicy : IPolicy) : Comp :=
  fun s0 =>
    let s := startCall s0 in
    match
      executeWithFallback (composedPolicy (executeWithTracking fn))
        (fallback options) (logger options) (name options)
        (Some (timeout options ?? TIMEOUT_DEFAULT, configuredMaxQueue options)) s
    with
    | (Resolved result, s1) =>
        (Resolved result, emit (successReport options (attemptCount s1)) s1)
    | (Rejected error, s1) =>
        let transformedError :=
          transformCockatielError error (failureErrorConfig options) in
        (Rejected transformedError,
         emit (failureReport options (attemptCount s1) transformedError) s1)
    | (Pending, s1) => (Pending, s1)
    end.

Section WithResilience.

Variable timeoutExecutor : Z -> list Event -> IPolicy.
Variable random : nat -> N.

Definition retryPolicyConfig (options : ResilienceOptions) (retry : RetryOptions)
    : RetryPolicyConfig :=
  {| rp_attempts := attempts retry ?? RETRY_DEFAULTS.attempts;
     rp_delay := delay retry ?? RETRY_DEFAULTS.delay;
     rp_maxDelay := maxDelay retry ?? RETRY_DEFAULTS.maxDelay;
     rp_backoff := backoff retry ?? RETRY_DEFAULTS.backoff;
     rp_jitter := jitter retry ?? RETRY_DEFAULTS.jitter;
     rp_shouldRetry := shouldRetry retry ?? isRetryableError;
     rp_logger := logger options;
     rp_metrics := metrics options;
     rp_name := name options |}.

(** The [policies] array: timeout first (outermost), bulkhead second, retry
    last (innermost); a policy whose option is missing is not created. *)
Definition policies (options : ResilienceOptions) : list IPolicy :=
  (match timeout options with
   | Some t =>
       [createTimeoutPolicy timeoutExecutor t (logger options) (metrics options)
          (name options)]
   | None => []
   end
   ++ match bulkhead options with
      | Some b =>
          [createBulkheadPolicy
             (maxConcurrent b ?? BULKHEAD_DEFAULTS.maxConcurrent)
             (maxQueue b ?? BULKHEAD_DEFAULTS.maxQueue)
             (logger options) (metrics options) (name options)]
      | None => []
      end
   ++ match retry options with
      | Some r => [createRetryPolicy random (retryPolicyConfig options r)]
      | None => []
      end)%list.

Definition withResilience (fn : nat -> Outcome) (options : ResilienceOptions)
    : Comp :=
  wrappedOperation fn options (composePolicies (policies options)).

End WithResilience.

(** ** Inputs used by the examples *)

(** A timer that never fires before the inner execution settles. *)
Definition neverExpires : Z -> list Event -> IPolicy := fun _ _ fn => fn.

Definition zeroDraws : nat -> N := fun _ => 0%N.

(** The state of a fresh wrapped handle. *)
Definition initialState : State :=
  {| attemptCount := 0; trace := [];
     bulkheadState := {| inFlight := 0; queue := []; nextTicket := 0 |} |}.

Definition noOptions : ResilienceOptions :=
  {| name := None; retry := None; bulkhead := None; timeout := None;
     fallback := VPlain PUndefined; logger := false; metrics := None |}.

Definition allMetrics : ResilienceMetrics :=
  {| onRetry := true; onSuccess := true; onFailure := true;
     onBulkheadRejected := true; onTimeout := true |}.

(** [retry: { attempts, delay: 10, jitter: false }] *)
Definition retryWithAttempts (n : Z) : RetryOptions :=
  {| attempts := Some n; delay := Some 10%N; maxDelay := None; backoff := None;
     jitter := Some false; shouldRetry := None |}.

Definition retryOnlyOptions (n : Z) : ResilienceOptions :=
  {| name := Some "test"; retry := Some (retryWithAttempts n); bulkhead := None;
     timeout := None; fallback := VPlain PUndefined; logger := false;
     metrics := None |}.

Definition alwaysRejects (e : JsError) : nat -> Outcome := fun _ => Rejected e.

(** [{ success: true }] *)
Definition successValue : JsVal := VPlain (PObject [("success", PBool true)]).

(** A fallback of an operation that returns functions: a function that
    ignores its argument and resolves with 1. *)
Definition functionValue : JsError -> Outcome :=
  fun _ => Resolved (VPlain (PNumber 1)).

Definition functionFallbackOptions : ResilienceOptions :=
  {| name := None; retry := None; bulkhead := None; timeout := None;
     fallback := VFunction functionValue; logger := false; metrics := None |}.

Definition guestFallbackOptions : ResilienceOptions :=
  {| name := Some "test"; retry := None; bulkhead := None; timeout := None;
     fallback := VPlain (PString "Guest"); logger := false;
     metrics := Some allMetrics |}.

Definition saturatedState : State :=
  {| attemptCount := 0; trace := [];
     bulkheadState := {| inFlight := 1; queue := []; nextTicket := 0 |} |}.

Definition singleSlot : BulkheadOptions :=
  {| maxConcurrent := Some 1; maxQueue := Some 0 |}.

Definition singleSlotOptions : ResilienceOptions :=
  {| name := Some "test-bulkhead"; retry := None; bulkhead := Some singleSlot;
     timeout := None; fallback := VPlain PUndefined; logger := false;
     metrics := Some allMetrics |}.

(** [retry: { attempts: 5, delay: 50, maxDelay: 100, backoff: 'exponential',
    jitter: false }] *)
Definition cappedBackoff : RetryPolicyConfig :=
  {| rp_attempts := 5; rp_delay := 50%N; rp_maxDelay := 100%N;
     rp_backoff := exponential; rp_jitter := false;
     rp_shouldRetry := isRetryableError; rp_logger := false;
     rp_metrics := None; rp_name := Some "test" |}.

(** The error of the usual [fetch] idiom for a 404 response:
    [new Error('Network response was not ok')] with [status = 404]. *)
Definition responseNotOk : JsError :=
  PlainError "Network response was not ok" [("status", PNumber 404)].

(** ** Notions used by the statements *)

(** The configuration [executeWithFallback] receives from the wrapped
    function. *)
Definition callErrorConfig (options : ResilienceOptions) : ErrorConfig :=
  fallbackErrorConfig
    (Some (timeout options ?? TIMEOUT_DEFAULT, configuredMaxQueue options)).

Definition isFailureEvent (ev : Event) : bool :=
  match ev with
  | FailureEvent _ _ _ => true
  | _ => false
  end.

Definition notFailure (ev : Event) : Prop := isFailureEvent ev = false.

Definition delayCapped (maxDelay : N) (ev : Event) : Prop :=
  match ev with
  | RetryEvent _ _ _ delay _ => (delay <= maxDelay)%N
  | _ => True
  end.

(** The delays of the retry events of a trace, in order. *)
Definition retryDelays (evs : list Event) : list N :=
  flat_map (fun ev => match ev with
                      | RetryEvent _ _ _ delay _ => [delay]
                      | _ => []
                      end) evs.

(** The claim C1 as the specification words it: every failure of the wrapped
    function is an instance of [ResilienceError]. *)
Definition always_canonical : Prop :=
  forall timeoutExecutor random fn options s e s',
    withResilience timeoutExecutor random fn options s = (Rejected e, s') ->
    instanceofResilienceError e = true.

(** The claim C3 as the specification words it: with a fallback value and an
    [onFailure] callback, an operation that always fails makes the wrapped
    function resolve with the value after [onFailure] has been called. *)
Definition fallback_reports_failure : Prop :=
  forall timeoutExecutor random fn options d m s,
    (forall k, exists e, fn k = Rejected e) ->
    fallback options = VPlain d ->
    d <> PUndefined ->
    metrics options = Some m ->
    onFailure m = true ->
    fst (withResilience timeoutExecutor random fn options s) = Resolved (VPlain d)
    /\ existsb isFailureEvent
         (trace (snd (withResilience timeoutExecutor random fn options s))) = true.

(** The claim C5 as the specification words it, clause by clause. *)
Definition classifier_as_stated : Prop :=
  (forall e c, instanceofError e = true -> getStatusCode e = Some c ->
               nonRetryableStatus c = true -> isRetryableError e = false)
  /\ (forall e c, instanceofError e = true -> getStatusCode e = Some c ->
                  500 <= c -> isRetryableError e = true)
  /\ (forall e, instanceofError e = true ->
                hasNetworkErrorCode e = true \/ hasNetworkMessage e = true ->
                isRetryableError e = true)
  /\ (forall e,
        ~ (exists c, instanceofError e = true /\ getStatusCode e = Some c
                     /\ (nonRetryableStatus c = true \/ 500 <= c)) ->
        ~ (instanceofError e = true
           /\ (hasNetworkErrorCode e = true \/ hasNetworkMessage e = true)) ->
        isRetryableError e = false).

(** ** policies.ts: [transformError] *)

(** The [config] argument of [transformError]. *)
Record TransformConfig : Type := {
  tcTimeout : option Z;
  tcMaxQueue : option Z
}.

Definition transformError (error : JsError) (config : TransformConfig) : JsError :=
  if instanceofCockatielBulkheadRejectedError error then
    BulkheadRejectedError (tcMaxQueue config ?? 0) (tcMaxQueue config ?? 0)
  else if instanceofCockatielTimeoutError error then
    TimeoutError (tcTimeout config ?? 0)
  else error.

(** The [timeout] and [maxQueue] entries of an [ErrorConfig]. *)
Definition withoutAttempts (config : ErrorConfig) : TransformConfig :=
  {| tcTimeout := cfgTimeout config; tcMaxQueue := cfgMaxQueue config |}.

(** An [Error] outside the two cockatiel classes whose message contains
    "retry": what the last test of [transformCockatielError] accepts. *)
Definition looksExhausted (error : JsError) : bool :=
  negb (instanceofCockatielBulkheadRejectedError error)
  && negb (instanceofCockatielTimeoutError error)
  && instanceofError error
  && JsString.includes (message error) "retry".

(** ** The logger package: types.ts and logger.ts *)

Module Logger.

(** ['debug' | 'info' | 'warn' | 'error' | 'silent'] *)
Inductive LogLevel : Type := Debug | Info | Warn | Error | Silent.

Definition LOG_LEVEL_VALUES (level : LogLevel) : Z :=
  match level with
  | Debug => 0
  | Info => 1
  | Warn => 2
  | Error => 3
  | Silent => 4
  end.

Definition shouldLog (currentLevel messageLevel : LogLevel) : bool :=
  LOG_LEVEL_VALUES messageLevel >=? LOG_LEVEL_VALUES currentLevel.

(** [NODE_ENV] is [process.env.NODE_ENV], [None] when it is not set. *)
Definition getDefaultLevel (NODE_ENV : option string) : LogLevel :=
  match NODE_ENV with
  | Some env =>
      if String.eqb env "production" then Info
      else if String.eqb env "test" then Silent
      else Debug
  | None => Debug
  end.

(** ['console' | 'json'] *)
Inductive Format : Type := Console | Json.

Definition getDefaultFormat (NODE_ENV : option string) : Format :=
  match NODE_ENV with
  | Some env => if String.eqb env "production" then Json else Console
  | None => Console
  end.

(** [LogMeta]: an object, its keys in insertion order.  Keys that are array
    indices, which JavaScript lists first, are left out. *)
Definition LogMeta : Type := Props.

(** [{ ...a, ...b }]: the keys of [a] keep their place and take the value [b]
    gives them, the other keys of [b] follow. *)
Definition spread (a b : LogMeta) : LogMeta :=
  (map (fun entry : string * PropVal =>
          (fst entry, if hasKey (fst entry) b then getKey (fst entry) b
                      else snd entry)) a
   ++ filter (fun entry : string * PropVal => negb (hasKey (fst entry) a)) b)%list.

(** [{ ...a, ...meta }] for an optional [meta]. *)
Definition spreadOptional (a : LogMeta) (meta : option LogMeta) : LogMeta :=
  match meta with
  | Some b => spread a b
  | None => spread a []
  end.

Record LoggerOptions : Type := {
  level : option LogLevel;
  format : option Format;
  timestamp : option bool;
  bindings : option LogMeta
}.

(** The module variable [globalDefaultLevel]. *)
Definition GlobalLevel : Type := option LogLevel.

Definition setGlobalLogLevel (level : LogLevel) (globalDefaultLevel : GlobalLevel)
    : GlobalLevel :=
  Some level.

Definition getGlobalLogLevel (NODE_ENV : option string)
    (globalDefaultLevel : GlobalLevel) : LogLevel :=
  globalDefaultLevel ?? getDefaultLevel NODE_ENV.

Definition resetGlobalLogLevel (globalDefaultLevel : GlobalLevel) : GlobalLevel :=
  None.

(** One call of a transport: which transport, and its arguments. *)
Record TransportCall : Type := {
  callTransport : Format;
  callLevel : LogLevel;
  callName : string;
  callMessage : string;
  callMeta : LogMeta;
  callTimestamp : bool
}.

(** What the closure built by [createLoggerImpl] holds. *)
Record Logger : Type := {
  loggerName : string;
  loggerLevel : LogLevel;
  loggerTransport : Format;
  loggerTimestamp : bool;
  loggerBindings : LogMeta
}.

Definition createLoggerImpl (name : string) (level : LogLevel)
    (transport : Format) (timestamp : bool) (bindings : LogMeta) : Logger :=
  {| loggerName := name; loggerLevel := level; loggerTransport := transport;
     loggerTimestamp := timestamp; loggerBindings := bindings |}.

(** The inner function [log]: the transport calls it makes. *)
Definition log (logger : Logger) (messageLevel : LogLevel) (message : string)
    (meta : option LogMeta) : list TransportCall :=
  if negb (shouldLog (loggerLevel logger) messageLevel) then []
  else
    [{| callTransport := loggerTransport logger;
        callLevel := messageLevel;
        callName := loggerName logger;
        callMessage := message;
        callMeta := spreadOptional (loggerBindings logger) meta;
        callTimestamp := loggerTimestamp logger |}].

Definition debug (logger : Logger) (message : string) (meta : option LogMeta) :=
  log logger Debug message meta.

Definition info (logger : Logger) (message : string) (meta : option LogMeta) :=
  log logger Info message meta.

Definition warn (logger : Logger) (message : string) (meta : option LogMeta) :=
  log logger Warn message meta.

Definition error (logger : Logger) (message : string) (meta : option LogMeta) :=
  log logger Error message meta.

Definition child (logger : Logger) (childBindings : LogMeta) : Logger :=
  createLoggerImpl (loggerName logger) (loggerLevel logger)
    (loggerTransport logger) (loggerTimestamp logger)
    (spread (loggerBindings logger) childBindings).

Definition createLogger (name : string) (options : LoggerOptions)
    (NODE_ENV : option string) (globalDefaultLevel : GlobalLevel) : Logger :=
  let level := level options ?? getGlobalLogLevel NODE_ENV globalDefaultLevel in
  let format := format options ?? getDefaultFormat NODE_ENV in
  let timestamp := timestamp options ?? true in
  let bindings := bindings options ?? [] in
  createLoggerImpl name level format timestamp bindings.

(** The four methods a caller can use, as levels. *)
Definition messageLevels : list LogLevel := [Debug; Info; Warn; Error].

End Logger.

(** ** ai-utils: index.ts *)

Module AiUtils.

(** The first [n] characters of a text. *)
Fixpoint firstChars (n : nat) (text : string) : string :=
  match n, text with
  | S n', String c rest => String c (firstChars n' rest)
  | _, _ => EmptyString
  end.

(** [text.slice(0, end)]: a negative [end] counts from the end of the text. *)
Definition slice0 (text : string) (endIndex : Z) : string :=
  let len := Z.of_nat (String.length text) in
  let stop := if endIndex <? 0 then Z.max (len + endIndex) 0
              else Z.min endIndex len in
  firstChars (Z.to_nat stop) text.

(** [maxTokens] is an integer here, and a text the sequence of its code
    units, each below 256. *)
Definition truncateToTokenLimit (text : string) (maxTokens : Z) : string :=
  let maxChars := maxTokens * 4 in
  if Z.of_nat (String.length text) <=? maxChars then text
  else slice0 text (maxChars - 3) ++ "...".

End AiUtils.

(** ** Notions used by the further properties *)

(** The characters of [`${n}`]. *)
Definition digitChars : list ascii :=
  ["-"; "0"; "1"; "2"; "3"; "4"; "5"; "6"; "7"; "8"; "9"]%char.

(** A retry event, if it is one, reports the delay [d]. *)
Definition delayIs (d : N) (ev : Event) : Prop :=
  match ev with
  | RetryEvent _ _ _ delay _ => delay = d
  | _ => True
  end.

(** * Properties *)

(** ** Text *)

Module StringFacts.
Import JsString.

Lemma chars_app (a b : string) : chars (a ++ b) = (chars a ++ chars b)%list.
Proof.
  induction a as [|c a IH]; simpl; [reflexivity | now rewrite IH].
Qed.

Lemma prefix_chars (needle hay : string) :
  String.prefix needle hay = true ->
  forall c, In c (chars needle) -> In c (chars hay).
Proof.
  revert hay.
  induction needle as [|a needle IH]; intros hay Hp c Hc; simpl in Hc.
  - contradiction.
  - destruct hay as [|b hay]; simpl in Hp; [discriminate Hp|].
    destruct (ascii_dec a b) as [->|]; [|discriminate Hp].
    simpl. destruct Hc as [->|Hc]; [now left | right; eauto].
Qed.

(** Every character of a needle occurs in a text that includes it. *)
Lemma includes_chars (hay needle : string) :
  includes hay needle = true ->
  forall c, In c (chars needle) -> In c (chars hay).
Proof.
  induction hay as [|b hay IH]; intros H c Hc;
    cbn [includes] in H; apply orb_true_iff in H as [H|H].
  - eapply prefix_chars; eauto.
  - discriminate H.
  - eapply prefix_chars; eauto.
  - right. eauto.
Qed.

Lemma includes_app_r (before hay needle : string) :
  includes hay needle = true -> includes (before ++ hay) needle = true.
Proof.
  intros H. induction before as [|c before IH]; [assumption|].
  change (String c before ++ hay) with (String c (before ++ hay)).
  cbn [includes]. rewrite IH. apply orb_true_r.
Qed.

Lemma uint_chars_no_y (d : Decimal.uint) :
  ~ In "y"%char (chars (NilEmpty.string_of_uint d)).
Proof.
  induction d as [|d IH|d IH|d IH|d IH|d IH|d IH|d IH|d IH|d IH|d IH]; simpl;
    [tauto | intros [H|H]; [discriminate H | exact (IH H)] ..].
Qed.

Lemma ofZ_no_y (n : Z) : ~ In "y"%char (chars (ofZ n)).
Proof.
  assert (U : forall d, ~ In "y"%char (chars (NilZero.string_of_uint d))).
  { intros d. pose proof (uint_chars_no_y d) as H.
    destruct d; simpl in *; try exact H.
    intros [E|[]]; discriminate E. }
  unfold ofZ.
  destruct (Z.to_int n) as [d|d]; unfold NilZero.string_of_int.
  - apply U.
  - simpl. intros [E|E]; [discriminate E | exact (U d E)].
Qed.

Lemma no_y_no_retry (hay : string) :
  ~ In "y"%char (chars hay) -> includes hay "retry" = false.
Proof.
  intros H. destruct (includes hay "retry") eqn:E; [|reflexivity].
  exfalso. apply H. eapply includes_chars; [eassumption|].
  simpl. tauto.
Qed.

End StringFacts.

(** ** Error transformation *)

Section Transform.
Import JsString StringFacts.

Lemma timeout_message_no_retry (duration : Z) :
  includes (message (TimeoutError duration)) "retry" = false.
Proof.
  apply no_y_no_retry.
  change (message (TimeoutError duration))
    with ("Operation timed out after " ++ (ofZ duration ++ "ms")).
  rewrite !chars_app, !in_app_iff.
  pose proof (ofZ_no_y duration) as H.
  intros [Y|[Y|Y]]; [|exact (H Y)|];
    simpl in Y; repeat (destruct Y as [Y|Y]; [discriminate Y|]); exact Y.
Qed.

Lemma bulkhead_message_no_retry (queueSize maxQueue : Z) :
  includes (message (BulkheadRejectedError queueSize maxQueue)) "retry" = false.
Proof.
  apply no_y_no_retry.
  change (message (BulkheadRejectedError queueSize maxQueue))
    with ("Bulkhead queue full: "
            ++ (ofZ queueSize ++ ("/" ++ (ofZ maxQueue ++ " requests queued")))).
  rewrite !chars_app, !in_app_iff.
  pose proof (ofZ_no_y queueSize) as Hq. pose proof (ofZ_no_y maxQueue) as Hm.
  intros [Y|[Y|[Y|[Y|Y]]]]; [|exact (Hq Y)| |exact (Hm Y)|];
    simpl in Y; repeat (destruct Y as [Y|Y]; [discriminate Y|]); exact Y.
Qed.

(** No instance of a cockatiel class leaves [transformCockatielError]. *)
Lemma transform_not_cockatiel (error : JsError) (config : ErrorConfig) :
  instanceofCockatielBulkheadRejectedError (transformCockatielError error config) = false
  /\ instanceofCockatielTimeoutError (transformCockatielError error config) = false.
Proof.
  unfold transformCockatielError.
  destruct error; simpl; try (split; reflexivity);
    match goal with
    | |- context [if ?b then _ else _] => destruct b; simpl; split; reflexivity
    end.
Qed.

Lemma transform_passthrough (error : JsError) (config : ErrorConfig) :
  instanceofCockatielBulkheadRejectedError error = false ->
  instanceofCockatielTimeoutError error = false ->
  instanceofError error && includes (message error) "retry" = false ->
  transformCockatielError error config = error.
Proof.
  unfold transformCockatielError. intros -> -> ->. reflexivity.
Qed.

Lemma transform_retry (error : JsError) (config : ErrorConfig) :
  instanceofCockatielBulkheadRejectedError error = false ->
  instanceofCockatielTimeoutError error = false ->
  instanceofError error = true ->
  includes (message error) "retry" = true ->
  transformCockatielError error config
  = RetryExhaustedError (cfgAttempts config ?? 0) error.
Proof.
  unfold transformCockatielError. intros -> -> -> ->. reflexivity.
Qed.

Lemma transform_bulkhead_fixed (q m : Z) (config : ErrorConfig) :
  transformCockatielError (BulkheadRejectedError q m) config
  = BulkheadRejectedError q m.
Proof.
  apply transform_passthrough; try reflexivity.
  rewrite bulkhead_message_no_retry. reflexivity.
Qed.

Lemma transform_timeout_fixed (d : Z) (config : ErrorConfig) :
  transformCockatielError (TimeoutError d) config = TimeoutError d.
Proof.
  apply transform_passthrough; try reflexivity.
  rewrite timeout_message_no_retry. reflexivity.
Qed.

End Transform.

(** ** The wrapped function, for any composed policy *)

(** Run the wrapped function up to the result [H] of the pipeline. *)
Ltac run_pipeline H :=
  unfold wrappedOperation, executeWithFallback; cbv zeta; rewrite H.

Section Wrapper.

Variable fn : nat -> Outcome.
Variable options : ResilienceOptions.
Variable policy : IPolicy.

Lemma wrapped_resolved (s s1 : State) (v : JsVal) :
  policy (executeWithTracking fn) (startCall s) = (Resolved v, s1) ->
  wrappedOperation fn options policy s
  = (Resolved v, emit (successReport options (attemptCount s1)) s1).
Proof.
  intros H. run_pipeline H. reflexivity.
Qed.

Lemma wrapped_pending (s s1 : State) :
  policy (executeWithTracking fn) (startCall s) = (Pending, s1) ->
  wrappedOperation fn options policy s = (Pending, s1).
Proof.
  intros H. run_pipeline H. reflexivity.
Qed.

(** Without a fallback the error of the pipeline is transformed twice: by
    [executeWithFallback] and by the [catch] block of the wrapped
    function. *)
Lemma wrapped_rejected_no_fallback (s s1 : State) (x : JsError) :
  isUndefined (fallback options) = true ->
  policy (executeWithTracking fn) (startCall s) = (Rejected x, s1) ->
  wrappedOperation fn options policy s
  = let e :=
      transformCockatielError
        (transformCockatielError x (callErrorConfig options))
        (failureErrorConfig options) in
    (Rejected e, emit (failureReport options (attemptCount s1) e) s1).
Proof.
  intros U H. run_pipeline H. rewrite U. reflexivity.
Qed.

Lemma wrapped_fallback_value (s s1 : State) (x : JsError) (d : PropVal) :
  fallback options = VPlain d ->
  d <> PUndefined ->
  policy (executeWithTracking fn) (startCall s) = (Rejected x, s1) ->
  wrappedOperation fn options policy s
  = let s2 :=
      emit (fallbackWarning (logger options) (name options)
              (transformCockatielError x (callErrorConfig options))) s1 in
    (Resolved (VPlain d), emit (successReport options (attemptCount s2)) s2).
Proof.
  intros F D H. run_pipeline H. rewrite F.
  destruct d; try reflexivity. contradiction.
Qed.

Lemma wrapped_fallback_function (s s1 : State) (x : JsError)
    (f : JsError -> Outcome) :
  fallback options = VFunction f ->
  policy (executeWithTracking fn) (startCall s) = (Rejected x, s1) ->
  wrappedOperation fn options policy s
  = let s2 :=
      emit (fallbackWarning (logger options) (name options)
              (transformCockatielError x (callErrorConfig options))) s1 in
    match f (transformCockatielError x (callErrorConfig options)) with
    | Resolved v =>
        (Resolved v, emit (successReport options (attemptCount s2)) s2)
    | Rejected y =>
        let e := transformCockatielError y (failureErrorConfig options) in
        (Rejected e, emit (failureReport options (attemptCount s2) e) s2)
    | Pending => (Pending, s2)
    end.
Proof.
  intros F H. run_pipeline H. rewrite F. simpl isUndefined. cbv iota.
  destruct (f _); reflexivity.
Qed.

(** Whatever the wrapped function rejects with has passed
    [transformCockatielError]. *)
Lemma wrapped_rejection_transformed (s s' : State) (e : JsError) :
  wrappedOperation fn options policy s = (Rejected e, s') ->
  exists y, e = transformCockatielError y (failureErrorConfig options).
Proof.
  unfold wrappedOperation. cbv zeta.
  destruct (executeWithFallback _ _ _ _ _ _) as [[v|y|] s1];
    intros [= <- <-]. eauto.
Qed.

End Wrapper.

(** ** Claims on the error taxonomy *)

(** C1, counterexample: wrapped without any policy, an operation that rejects
    with [new Error('Fail')] makes the wrapped function reject with that very
    error, which is none of the four kinds. *)
Lemma raw_error_surfaces : ~ always_canonical.
Proof.
  intros H.
  specialize (H neverExpires zeroDraws (alwaysRejects (PlainError "Fail" []))
                noOptions initialState _ _ eq_refl).
  discriminate H.
Qed.

(** C1, amended: whatever the wrapped function rejects with is never an
    instance of a cockatiel class.  Without a fallback, when the composed
    pipeline rejects with [x], the error raised is [BulkheadRejectedError] for
    a bulkhead rejection and [TimeoutError] for a cancellation; when no retry
    is configured it is [x] itself, unwrapped, for any other error whose
    message does not contain "retry".  What is raised after the attempts of a
    retry configuration is not part of this statement. *)
Theorem raised_error_kinds (timeoutExecutor : Z -> list Event -> IPolicy)
    (random : nat -> N) (fn : nat -> Outcome) (options : ResilienceOptions)
    (s s' : State) (e : JsError) :
  withResilience timeoutExecutor random fn options s = (Rejected e, s') ->
  instanceofCockatielBulkheadRejectedError e = false
  /\ instanceofCockatielTimeoutError e = false
  /\ (forall x s1,
      isUndefined (fallback options) = true ->
      composePolicies (policies timeoutExecutor random options)
        (executeWithTracking fn) (startCall s) = (Rejected x, s1) ->
      (instanceofCockatielBulkheadRejectedError x = true ->
       e = BulkheadRejectedError (configuredMaxQueue options)
             (configuredMaxQueue options))
      /\ (instanceofCockatielTimeoutError x = true ->
          e = TimeoutError (timeout options ?? TIMEOUT_DEFAULT))
      /\ (retry options = None ->
          instanceofCockatielBulkheadRejectedError x = false ->
          instanceofCockatielTimeoutError x = false ->
          instanceofError x && JsString.includes (message x) "retry" = false ->
          e = x)).
Proof.
  unfold withResilience.
  set (policy := composePolicies (policies timeoutExecutor random options)).
  intros W.
  destruct (wrapped_rejection_transformed fn options policy s s' e W) as (y & ->).
  split; [apply transform_not_cockatiel|].
  split; [apply transform_not_cockatiel|].
  intros x s1 U H.
  rewrite (wrapped_rejected_no_fallback fn options policy s s1 x U H) in W.
  cbv zeta in W. injection W as W _. rewrite <- W. clear W.
  split; [|split].
  - intros B. destruct x; try discriminate B.
    apply transform_bulkhead_fixed.
  - intros T. destruct x; try discriminate T.
    apply transform_timeout_fixed.
  - intros _ B T R.
    rewrite (transform_passthrough x (callErrorConfig options) B T R).
    apply transform_passthrough; assumption.
Qed.

Lemma raised_error_kinds_witness :
  let e := PlainError "Fail" [] in
  instanceofCockatielBulkheadRejectedError e = false
  /\ instanceofCockatielTimeoutError e = false
  /\ (forall x s1,
      isUndefined (fallback noOptions) = true ->
      composePolicies (policies neverExpires zeroDraws noOptions)
        (executeWithTracking (alwaysRejects e)) (startCall initialState)
      = (Rejected x, s1) ->
      (instanceofCockatielBulkheadRejectedError x = true ->
       e = BulkheadRejectedError (configuredMaxQueue noOptions)
             (configuredMaxQueue noOptions))
      /\ (instanceofCockatielTimeoutError x = true ->
          e = TimeoutError (timeout noOptions ?? TIMEOUT_DEFAULT))
      /\ (retry noOptions = None ->
          instanceofCockatielBulkheadRejectedError x = false ->
          instanceofCockatielTimeoutError x = false ->
          instanceofError x && JsString.includes (message x) "retry" = false ->
          e = x)).
Proof.
  exact (raised_error_kinds neverExpires zeroDraws
           (alwaysRejects (PlainError "Fail" [])) noOptions initialState _ _
           eq_refl).
Defined.

(** What the pipeline rejects with, as it is raised without a fallback. *)
Lemma raised_without_fallback (fn : nat -> Outcome) (options : ResilienceOptions)
    (policy : IPolicy) (s s1 : State) (x : JsError) :
  isUndefined (fallback options) = true ->
  policy (executeWithTracking fn) (startCall s) = (Rejected x, s1) ->
  instanceofCockatielBulkheadRejectedError x = false ->
  instanceofCockatielTimeoutError x = false ->
  instanceofError x && JsString.includes (message x) "retry" = false ->
  fst (wrappedOperation fn options policy s) = Rejected x.
Proof.
  intros U H B T R.
  rewrite (wrapped_rejected_no_fallback fn options policy s s1 x U H).
  cbv zeta. simpl fst. f_equal.
  rewrite (transform_passthrough x (callErrorConfig options) B T R).
  apply transform_passthrough; assumption.
Qed.

(** C9: an [Error] that is neither of the two cockatiel classes and whose
    message contains "retry" is wrapped by the [catch] block of the wrapped
    function in a [RetryExhaustedError] whose [attempts] is the configured
    number of attempts, 3 when no retry is configured; nothing in the
    transformation looks at the attempts made.  End to end, without a
    fallback, the error is wrapped twice: first by [executeWithFallback],
    with 0 attempts. *)
Theorem retry_message_wrapped (options : ResilienceOptions) (error : JsError) :
  instanceofCockatielBulkheadRejectedError error = false ->
  instanceofCockatielTimeoutError error = false ->
  instanceofError error = true ->
  JsString.includes (message error) "retry" = true ->
  transformCockatielError error (failureErrorConfig options)
  = RetryExhaustedError (configuredAttempts options) error
  /\ (retry options = None -> configuredAttempts options = 3)
  /\ (forall r, retry options = Some r ->
      configuredAttempts options = attempts r ?? 3)
  /\ (forall fn policy s s1,
      isUndefined (fallback options) = true ->
      policy (executeWithTracking fn) (startCall s) = (Rejected error, s1) ->
      fst (wrappedOperation fn options policy s)
      = Rejected (RetryExhaustedError (configuredAttempts options)
                    (RetryExhaustedError 0 error))).
Proof.
  intros B T E R. repeat split.
  - apply transform_retry; assumption.
  - unfold configuredAttempts. intros ->. reflexivity.
  - unfold configuredAttempts. intros r ->. reflexivity.
  - intros fn policy s s1 U H.
    rewrite (wrapped_rejected_no_fallback fn options policy s s1 error U H).
    cbv zeta. simpl fst. f_equal.
    rewrite (transform_retry error (callErrorConfig options) B T E R).
    simpl (cfgAttempts _ ?? 0).
    apply transform_retry; try reflexivity.
    change (message (RetryExhaustedError 0 error))
      with (("Retry exhausted after " ++ JsString.ofZ 0 ++ " attempts: ")
              ++ message error).
    apply StringFacts.includes_app_r. exact R.
Qed.

Lemma retry_message_wrapped_witness :
  transformCockatielError (PlainError "please retry later" [])
    (failureErrorConfig noOptions)
  = RetryExhaustedError 3 (PlainError "please retry later" []).
Proof.
  exact (proj1 (retry_message_wrapped noOptions (PlainError "please retry later" [])
                  eq_refl eq_refl eq_refl eq_refl)).
Defined.

(** ** Claims on the fallback *)

(** C10: a fallback that is a function is called with the transformed error,
    and the wrapped function settles the way the call does; the function
    itself is never the result, also when the return type of the operation
    is a function type. *)
Theorem function_fallback_is_called (fn : nat -> Outcome)
    (options : ResilienceOptions) (policy : IPolicy) (s s1 : State)
    (x : JsError) (f : JsError -> Outcome) :
  fallback options = VFunction f ->
  policy (executeWithTracking fn) (startCall s) = (Rejected x, s1) ->
  fst (executeWithFallback (policy (executeWithTracking fn)) (fallback options)
         (logger options) (name options)
         (Some (timeout options ?? TIMEOUT_DEFAULT, configuredMaxQueue options))
         (startCall s))
  = f (transformCockatielError x (callErrorConfig options))
  /\ fst (wrappedOperation fn options policy s)
     = match f (transformCockatielError x (callErrorConfig options)) with
       | Resolved v => Resolved v
       | Rejected y =>
           Rejected (transformCockatielError y (failureErrorConfig options))
       | Pending => Pending
       end.
Proof.
  intros F H. split.
  - unfold executeWithFallback. rewrite H, F. reflexivity.
  - rewrite (wrapped_fallback_function fn options policy s s1 x f F H).
    cbv zeta. destruct (f _); reflexivity.
Qed.

Lemma function_fallback_is_called_witness :
  fst (wrappedOperation (alwaysRejects (PlainError "Fail" []))
         functionFallbackOptions (fun fn => fn) initialState)
  = Resolved (VPlain (PNumber 1)).
Proof.
  exact (proj2 (function_fallback_is_called
                  (alwaysRejects (PlainError "Fail" [])) functionFallbackOptions
                  (fun fn => fn) initialState _ _ functionValue
                  eq_refl eq_refl)).
Defined.

(** C3, counterexample: [fallback: 'Guest'], every metrics callback supplied,
    no policy, and an operation that always rejects with an HTTP 500 error.
    The wrapped function resolves with 'Guest' and the callbacks see one
    success and no failure. *)
Lemma fallback_skips_onFailure : ~ fallback_reports_failure.
Proof.
  intros H.
  destruct (H neverExpires zeroDraws (alwaysRejects (createHttpError 500))
              guestFallbackOptions (PString "Guest") allMetrics initialState)
    as [_ F]; try reflexivity.
  - intros k. eexists. reflexivity.
  - discriminate.
  - vm_compute in F. discriminate F.
Qed.

(** C3, amended: when the composed pipeline rejects (as it does for an
    operation that always fails) and the fallback is a value other than a
    function, the wrapped function resolves with the value.  [onFailure] is
    not called: after the pipeline the logger receives the warning "Falling
    back after error" with the message of the transformed error, and then the
    success is reported ([onSuccess] with the attempts made, and the info
    log). *)
Theorem fallback_value_reports_success (fn : nat -> Outcome)
    (options : ResilienceOptions) (policy : IPolicy) (s s1 : State)
    (x : JsError) (d : PropVal) :
  fallback options = VPlain d ->
  d <> PUndefined ->
  policy (executeWithTracking fn) (startCall s) = (Rejected x, s1) ->
  let reported :=
    (fallbackWarning (logger options) (name options)
       (transformCockatielError x (callErrorConfig options))
     ++ successReport options (attemptCount s1))%list in
  fst (wrappedOperation fn options policy s) = Resolved (VPlain d)
  /\ trace (snd (wrappedOperation fn options policy s))
     = (trace s1 ++ reported)%list
  /\ existsb isFailureEvent reported = false.
Proof.
  intros F D H reported.
  rewrite (wrapped_fallback_value fn options policy s s1 x d F D H).
  cbv zeta. split; [reflexivity|]. split.
  - simpl. unfold reported. now rewrite app_assoc.
  - unfold reported, fallbackWarning, successReport, logWith, notify.
    destruct (logger options), (metrics options) as [m|];
      try destruct (onSuccess m); reflexivity.
Qed.

Lemma fallback_value_reports_success_witness :
  fst (wrappedOperation (alwaysRejects (createHttpError 500))
         guestFallbackOptions (fun fn => fn) initialState)
  = Resolved (VPlain (PString "Guest")).
Proof.
  refine (proj1 (fallback_value_reports_success
                   (alwaysRejects (createHttpError 500)) guestFallbackOptions
                   (fun fn => fn) initialState _ _ (PString "Guest")
                   eq_refl _ eq_refl)).
  discriminate.
Defined.

(** ** The retry loop *)

Section RetryLoop.

Variable handles : JsError -> bool.
Variable backoff : Cockatiel.Backoff.
Variable listeners : Cockatiel.RetryListeners.
Variable random : nat -> N.
Variable fn : nat -> Outcome.

(** An error the classifier refuses ends the loop after this attempt. *)
Lemma retryLoop_refused (retriesLeft attempt : nat) (s : State) (e : JsError) :
  fn (attemptCount s) = Rejected e ->
  handles e = false ->
  exists s',
    Cockatiel.retryLoop handles backoff listeners random retriesLeft attempt
      (executeWithTracking fn) s = (Rejected e, s')
    /\ attemptCount s' = S (attemptCount s)
    /\ bulkheadState s' = bulkheadState s.
Proof.
  intros F H.
  destruct retriesLeft; simpl; unfold executeWithTracking;
    rewrite F, H; eexists; (split; [reflexivity|split; reflexivity]).
Qed.

(** A success ends the loop. *)
Lemma retryLoop_resolved (retriesLeft attempt : nat) (s : State) (v : JsVal) :
  fn (attemptCount s) = Resolved v ->
  exists s',
    Cockatiel.retryLoop handles backoff listeners random retriesLeft attempt
      (executeWithTracking fn) s = (Resolved v, s')
    /\ attemptCount s' = S (attemptCount s)
    /\ bulkheadState s' = bulkheadState s.
Proof.
  intros F.
  destruct retriesLeft; simpl; unfold executeWithTracking;
    rewrite F; eexists; (split; [reflexivity|split; reflexivity]).
Qed.

(** An operation that keeps failing with retryable errors is invoked once
    more than there are retries left, and the loop rejects with the error of
    the last invocation. *)
Lemma retryLoop_exhausted (errors : nat -> JsError) :
  (forall k, fn k = Rejected (errors k)) ->
  (forall k, handles (errors k) = true) ->
  forall (retriesLeft attempt : nat) (s : State),
  exists s',
    Cockatiel.retryLoop handles backoff listeners random retriesLeft attempt
      (executeWithTracking fn) s
    = (Rejected (errors (attemptCount s + retriesLeft)%nat), s')
    /\ attemptCount s' = S (attemptCount s + retriesLeft)
    /\ bulkheadState s' = bulkheadState s.
Proof.
  intros F H. induction retriesLeft as [|n IH]; intros attempt s.
  - simpl. unfold executeWithTracking. rewrite F, H, Nat.add_0_r.
    eexists. split; [reflexivity|split; reflexivity].
  - cbn [Cockatiel.retryLoop]. unfold executeWithTracking at 1.
    rewrite F, H. cbv zeta.
    match goal with
    | |- context [Cockatiel.retryLoop _ _ _ _ n (S attempt) _ ?st] =>
        destruct (IH (S attempt) st) as (s' & E & A & B)
    end.
    exists s'. rewrite E. simpl in A, B.
    rewrite Nat.add_succ_r. simpl. repeat split; assumption.
Qed.

(** Early success: an operation that fails [k] times with retryable errors,
    [k] at most the retries left, and then succeeds is invoked [k + 1] times
    and the loop resolves with its value. *)
Lemma retryLoop_early_success (v : JsVal) :
  forall (k retriesLeft attempt : nat) (s : State),
    (k <= retriesLeft)%nat ->
    (forall i, (i < k)%nat ->
               exists e, fn (attemptCount s + i)%nat = Rejected e
                         /\ handles e = true) ->
    fn (attemptCount s + k)%nat = Resolved v ->
    exists s',
      Cockatiel.retryLoop handles backoff listeners random retriesLeft attempt
        (executeWithTracking fn) s = (Resolved v, s')
      /\ attemptCount s' = S (attemptCount s + k).
Proof.
  induction k as [|k IH]; intros retriesLeft attempt s L F V.
  - rewrite Nat.add_0_r in V.
    destruct (retryLoop_resolved retriesLeft attempt s v V) as (s' & E & A & _).
    exists s'. rewrite Nat.add_0_r. now split.
  - destruct retriesLeft as [|n]; [lia|].
    destruct (F 0%nat) as (e & Fe & He); [lia|].
    rewrite Nat.add_0_r in Fe.
    cbn [Cockatiel.retryLoop]. unfold executeWithTracking at 1.
    rewrite Fe, He. cbv zeta.
    match goal with
    | |- context [Cockatiel.retryLoop _ _ _ _ n (S attempt) _ ?st] =>
        destruct (IH n (S attempt) st) as (s' & E & A)
    end.
    + lia.
    + intros i Hi. simpl attemptCount.
      destruct (F (S i)) as (e' & Fe' & He'); [lia|].
      exists e'. rewrite Nat.add_succ_r in Fe'. now split.
    + simpl attemptCount. rewrite Nat.add_succ_r in V. exact V.
    + exists s'. split; [exact E|]. simpl in A. rewrite A. lia.
Qed.

(** An operation that always fails makes the loop reject. *)
Lemma retryLoop_keeps_failing :
  (forall k, exists e, fn k = Rejected e) ->
  forall (retriesLeft attempt : nat) (s : State),
  exists x s',
    Cockatiel.retryLoop handles backoff listeners random retriesLeft attempt
      (executeWithTracking fn) s = (Rejected x, s').
Proof.
  intros F. induction retriesLeft as [|n IH]; intros attempt s;
    cbn [Cockatiel.retryLoop]; unfold executeWithTracking at 1;
    destruct (F (attemptCount s)) as [e ->]; cbv zeta;
    destruct (handles e); eauto.
Qed.

(** A property of events that the listeners respect is kept along the
    loop. *)
Variable P : Event -> Prop.
Hypothesis failure_respects : forall e, Forall P (Cockatiel.failureListener listeners e).
Hypothesis success_respects : Forall P (Cockatiel.successListener listeners).
Hypothesis retry_respects :
  forall e attempt,
    Forall P (Cockatiel.retryListener listeners e
                (Cockatiel.realizedDelay backoff attempt (random attempt)) attempt).

Lemma retryLoop_trace_invariant (retriesLeft attempt : nat) (s : State) :
  Forall P (trace s) ->
  Forall P (trace (snd (Cockatiel.retryLoop handles backoff listeners random
                          retriesLeft attempt (executeWithTracking fn) s))).
Proof.
  assert (E : forall evs st, Forall P evs -> Forall P (trace st) ->
                             Forall P (trace (emit evs st))).
  { intros evs st He Hs. simpl. apply Forall_app. now split. }
  revert attempt s.
  induction retriesLeft as [|n IH]; intros attempt s H;
    cbn [Cockatiel.retryLoop]; unfold executeWithTracking at 1;
    destruct (fn (attemptCount s)) as [v|e|]; cbv zeta;
    try (destruct (handles e)); try exact H;
    try (apply IH); repeat (apply E; auto).
Qed.

End RetryLoop.

(** With a retry configuration alone the composed policy is the retry
    policy. *)
Lemma retry_only_policy (timeoutExecutor : Z -> list Event -> IPolicy)
    (random : nat -> N) (options : ResilienceOptions) (r : RetryOptions) :
  retry options = Some r ->
  bulkhead options = None ->
  timeout options = None ->
  composePolicies (policies timeoutExecutor random options)
  = createRetryPolicy random (retryPolicyConfig options r).
Proof.
  unfold policies. intros -> -> ->. reflexivity.
Qed.

(** The wrapped function leaves the attempt counter where the pipeline left
    it. *)
Lemma wrapped_attemptCount (fn : nat -> Outcome) (options : ResilienceOptions)
    (policy : IPolicy) (s s1 : State) (r : Outcome) :
  policy (executeWithTracking fn) (startCall s) = (r, s1) ->
  attemptCount (snd (wrappedOperation fn options policy s)) = attemptCount s1.
Proof.
  intros H. run_pipeline H.
  destruct r as [v|x|]; try reflexivity.
  destruct (isUndefined (fallback options)); [reflexivity|].
  destruct (fallback options) as [d|f]; [reflexivity|].
  destruct (f _); reflexivity.
Qed.

(** An error the classifier refuses ends the loop after this attempt: the
    run, in full.  Nothing of the operation but this invocation is used. *)
Lemma retryLoop_refused_run (handles : JsError -> bool)
    (backoff : Cockatiel.Backoff) (listeners : Cockatiel.RetryListeners)
    (random : nat -> N) (fn : nat -> Outcome) (retriesLeft attempt : nat)
    (s : State) (e : JsError) :
  fn (attemptCount s) = Rejected e ->
  handles e = false ->
  Cockatiel.retryLoop handles backoff listeners random retriesLeft attempt
    (executeWithTracking fn) s
  = (Rejected e,
     emit (Cockatiel.failureListener listeners e)
       {| attemptCount := S (attemptCount s); trace := trace s;
          bulkheadState := bulkheadState s |}).
Proof.
  intros F H.
  destruct retriesLeft; simpl; unfold executeWithTracking; rewrite F, H;
    reflexivity.
Qed.

Lemma retryDelays_app (a b : list Event) :
  retryDelays (a ++ b) = (retryDelays a ++ retryDelays b)%list.
Proof.
  unfold retryDelays. apply flat_map_app.
Qed.

Lemma retryDelays_logWith (logger : bool) (level : LogLevel) (msg : string)
    (meta : Props) :
  retryDelays (logWith logger level msg meta) = [].
Proof.
  now destruct logger.
Qed.

(** The wrapped function itself reports no retry. *)
Lemma wrapped_retryDelays (fn : nat -> Outcome) (options : ResilienceOptions)
    (policy : IPolicy) (s s1 : State) (r : Outcome) :
  policy (executeWithTracking fn) (startCall s) = (r, s1) ->
  retryDelays (trace (snd (wrappedOperation fn options policy s)))
  = retryDelays (trace s1).
Proof.
  assert (N : forall callback ev,
             retryDelays [ev] = [] ->
             retryDelays (notify (metrics options) callback ev) = []).
  { intros callback ev E. unfold notify.
    destruct (metrics options) as [m|]; [|reflexivity].
    destruct (callback m); [exact E | reflexivity]. }
  assert (S1 : forall n st,
             retryDelays (trace (emit (successReport options n) st))
             = retryDelays (trace st)).
  { intros n st. simpl. unfold successReport.
    rewrite !retryDelays_app, retryDelays_logWith, N by reflexivity.
    now rewrite !app_nil_r. }
  assert (F1 : forall n x st,
             retryDelays (trace (emit (failureReport options n x) st))
             = retryDelays (trace st)).
  { intros n x st. simpl. unfold failureReport.
    rewrite !retryDelays_app, retryDelays_logWith, N by reflexivity.
    now rewrite !app_nil_r. }
  assert (W1 : forall x st,
             retryDelays
               (trace (emit (fallbackWarning (logger options) (name options) x) st))
             = retryDelays (trace st)).
  { intros x st. simpl. unfold fallbackWarning.
    rewrite retryDelays_app, retryDelays_logWith. now rewrite app_nil_r. }
  intros H. run_pipeline H.
  destruct r as [v|x|]; cbn [snd]; [apply S1 | | reflexivity].
  destruct (isUndefined (fallback options)); [apply F1|].
  destruct (fallback options) as [d|f].
  - cbn [snd]. rewrite S1. apply W1.
  - destruct (f _); cbn [snd]; [rewrite S1 | rewrite F1 |]; apply W1.
Qed.

(** The composed pipeline at an operation whose first invocation fails with
    an error the filter refuses, when the bulkhead, if there is one, has a
    free slot and the deadline, if there is one, does not pass before the
    pipeline settles: it rejects with that error after one invocation, and
    its run is the same for every such operation. *)
Lemma refused_pipeline (timeoutExecutor : Z -> list Event -> IPolicy)
    (random : nat -> N) (options : ResilienceOptions) (r : RetryOptions)
    (e : JsError) (s : State) :
  retry options = Some r ->
  (shouldRetry r ?? isRetryableError) e = false ->
  (forall b, bulkhead options = Some b ->
     Z.of_nat (inFlight (bulkheadState s))
     < maxConcurrent b ?? BULKHEAD_DEFAULTS.maxConcurrent) ->
  (forall t evs inner st, timeout options = Some t ->
     timeoutExecutor t evs inner st = inner st) ->
  exists s1,
    (forall fn, fn 0%nat = Rejected e ->
       composePolicies (policies timeoutExecutor random options)
         (executeWithTracking fn) (startCall s) = (Rejected e, s1))
    /\ attemptCount s1 = 1%nat
    /\ retryDelays (trace s1) = retryDelays (trace s).
Proof.
  intros R H B T.
  assert (L : forall fn st, attemptCount st = 0%nat -> fn 0%nat = Rejected e ->
            createRetryPolicy random (retryPolicyConfig options r)
              (executeWithTracking fn) st
            = (Rejected e,
               emit (Cockatiel.failureListener
                       (retryListeners (retryPolicyConfig options r)) e)
                 {| attemptCount := 1; trace := trace st;
                    bulkheadState := bulkheadState st |})).
  { intros fn st A F. unfold createRetryPolicy, Cockatiel.retry.
    rewrite (retryLoop_refused_run _ _ _ _ fn _ _ st e); [now rewrite A| |exact H].
    now rewrite A. }
  assert (D : forall st,
            retryDelays
              (trace (emit (Cockatiel.failureListener
                              (retryListeners (retryPolicyConfig options r)) e) st))
            = retryDelays (trace st)).
  { intros st. simpl. rewrite retryDelays_app, retryDelays_logWith.
    now rewrite app_nil_r. }
  unfold policies. rewrite R.
  destruct (bulkhead options) as [b|] eqn:Eb;
    destruct (timeout options) as [t|] eqn:Et; simpl app;
    unfold composePolicies, Cockatiel.wrap; simpl fold_right.
  - pose proof (B b eq_refl) as G.
    eexists. split; [|split].
    + intros fn F. unfold createTimeoutPolicy. rewrite (T t _ _ _ eq_refl).
      unfold createBulkheadPolicy, Cockatiel.bulkhead, Cockatiel.acquire.
      simpl bulkheadState.
      destruct (Z.ltb_spec (Z.of_nat (inFlight (bulkheadState s)))
                  (maxConcurrent b ?? BULKHEAD_DEFAULTS.maxConcurrent)); [|lia].
      rewrite L; [reflexivity | reflexivity | exact F].
    + reflexivity.
    + simpl trace. rewrite retryDelays_app, retryDelays_logWith.
      now rewrite app_nil_r.
  - pose proof (B b eq_refl) as G.
    eexists. split; [|split].
    + intros fn F.
      unfold createBulkheadPolicy, Cockatiel.bulkhead, Cockatiel.acquire.
      simpl bulkheadState.
      destruct (Z.ltb_spec (Z.of_nat (inFlight (bulkheadState s)))
                  (maxConcurrent b ?? BULKHEAD_DEFAULTS.maxConcurrent)); [|lia].
      rewrite L; [reflexivity | reflexivity | exact F].
    + reflexivity.
    + simpl trace. rewrite retryDelays_app, retryDelays_logWith.
      now rewrite app_nil_r.
  - eexists. split; [|split].
    + intros fn F. unfold createTimeoutPolicy. rewrite (T t _ _ _ eq_refl).
      apply L; [reflexivity | exact F].
    + reflexivity.
    + rewrite D. reflexivity.
  - eexists. split; [|split].
    + intros fn F. apply L; [reflexivity | exact F].
    + reflexivity.
    + rewrite D. reflexivity.
Qed.

(** C4: with a retry configuration, whatever its [attempts], an operation
    whose first invocation fails with an error [e] the filter ([shouldRetry],
    or [isRetryableError] when none is given) refuses is invoked exactly
    once, with or without a bulkhead and a timeout, when the bulkhead has a
    free slot and the deadline does not pass before the pipeline settles.
    The pipeline rejects with [e], the error of that invocation; the counter
    of the call ends at 1; no retry is reported; without a fallback the
    wrapped function rejects with [e] as the two transformations leave it;
    and an operation that differs only in its later invocations gives the
    same run, so none of them takes place. *)
Theorem non_retryable_invoked_once (timeoutExecutor : Z -> list Event -> IPolicy)
    (random : nat -> N) (fn : nat -> Outcome) (options : ResilienceOptions)
    (r : RetryOptions) (e : JsError) (s : State) :
  retry options = Some r ->
  fn 0%nat = Rejected e ->
  (shouldRetry r ?? isRetryableError) e = false ->
  (forall b, bulkhead options = Some b ->
     Z.of_nat (inFlight (bulkheadState s))
     < maxConcurrent b ?? BULKHEAD_DEFAULTS.maxConcurrent) ->
  (forall t evs inner st, timeout options = Some t ->
     timeoutExecutor t evs inner st = inner st) ->
  let run := withResilience timeoutExecutor random fn options s in
  fst (composePolicies (policies timeoutExecutor random options)
         (executeWithTracking fn) (startCall s)) = Rejected e
  /\ attemptCount (snd run) = 1%nat
  /\ retryDelays (trace (snd run)) = retryDelays (trace s)
  /\ (isUndefined (fallback options) = true ->
      fst run
      = Rejected (transformCockatielError
                    (transformCockatielError e (callErrorConfig options))
                    (failureErrorConfig options)))
  /\ (forall fn' : nat -> Outcome,
        fn' 0%nat = fn 0%nat ->
        withResilience timeoutExecutor random fn' options s = run).
Proof.
  intros R F H B T run.
  destruct (refused_pipeline timeoutExecutor random options r e s R H B T)
    as (s1 & P & A & D).
  subst run. unfold withResilience.
  set (policy := composePolicies (policies timeoutExecutor random options)) in *.
  pose proof (P fn F) as E.
  split; [now rewrite E|].
  split; [now rewrite (wrapped_attemptCount fn options policy s s1 _ E)|].
  split; [now rewrite (wrapped_retryDelays fn options policy s s1 _ E)|].
  split.
  - intros U.
    now rewrite (wrapped_rejected_no_fallback fn options policy s s1 e U E).
  - intros fn' F'. rewrite F in F'.
    unfold wrappedOperation. cbv zeta.
    unfold executeWithFallback. now rewrite E, (P fn' F').
Qed.

Lemma non_retryable_invoked_once_witness :
  let options :=
    {| name := Some "test"; retry := Some (retryWithAttempts 3);
       bulkhead := Some singleSlot; timeout := Some 1000;
       fallback := VPlain PUndefined; logger := false;
       metrics := Some allMetrics |} in
  let fn := fun k => match k with
                     | 0%nat => Rejected (createHttpError 404)
                     | _ => Resolved successValue
                     end in
  let run := withResilience neverExpires zeroDraws fn options initialState in
  fst (composePolicies (policies neverExpires zeroDraws options)
         (executeWithTracking fn) (startCall initialState))
  = Rejected (createHttpError 404)
  /\ attemptCount (snd run) = 1%nat
  /\ retryDelays (trace (snd run)) = retryDelays (trace initialState)
  /\ (isUndefined (fallback options) = true ->
      fst run
      = Rejected (transformCockatielError
                    (transformCockatielError (createHttpError 404)
                       (callErrorConfig options))
                    (failureErrorConfig options)))
  /\ (forall fn' : nat -> Outcome,
        fn' 0%nat = fn 0%nat ->
        withResilience neverExpires zeroDraws fn' options initialState = run).
Proof.
  refine (non_retryable_invoked_once neverExpires zeroDraws
            (fun k => match k with
                      | 0%nat => Rejected (createHttpError 404)
                      | _ => Resolved successValue
                      end)
            {| name := Some "test"; retry := Some (retryWithAttempts 3);
               bulkhead := Some singleSlot; timeout := Some 1000;
               fallback := VPlain PUndefined; logger := false;
               metrics := Some allMetrics |}
            (retryWithAttempts 3) (createHttpError 404) initialState
            eq_refl eq_refl eq_refl _ _).
  - intros b [= <-]. simpl. lia.
  - intros t evs inner st _. reflexivity.
Defined.

(** With a retry configuration alone and [attempts = n >= 1], an operation
    that always fails with errors the filter accepts is invoked exactly [n]
    times.  Without a fallback the wrapped function then rejects with the
    error of the last invocation itself whenever its message does not contain
    "retry". *)
Lemma exhausted_retry_surfaces_last_error
    (timeoutExecutor : Z -> list Event -> IPolicy) (random : nat -> N)
    (fn : nat -> Outcome) (options : ResilienceOptions) (r : RetryOptions)
    (errors : nat -> JsError) (n : Z) (s : State) :
  retry options = Some r ->
  bulkhead options = None ->
  timeout options = None ->
  isUndefined (fallback options) = true ->
  attempts r ?? RETRY_DEFAULTS.attempts = n ->
  1 <= n ->
  (forall k, fn k = Rejected (errors k)) ->
  (forall k, (shouldRetry r ?? isRetryableError) (errors k) = true) ->
  let last := errors (Z.to_nat (n - 1)) in
  attemptCount (snd (withResilience timeoutExecutor random fn options s))
  = Z.to_nat n
  /\ (instanceofCockatielBulkheadRejectedError last = false ->
      instanceofCockatielTimeoutError last = false ->
      instanceofError last && JsString.includes (message last) "retry" = false ->
      fst (withResilience timeoutExecutor random fn options s) = Rejected last).
Proof.
  intros R B T U N L F H last. subst n. unfold withResilience.
  rewrite (retry_only_policy _ _ _ _ R B T).
  set (policy := createRetryPolicy random (retryPolicyConfig options r)).
  assert (E : exists s',
             policy (executeWithTracking fn) (startCall s) = (Rejected last, s')
             /\ attemptCount s'
                = S (Z.to_nat (attempts r ?? RETRY_DEFAULTS.attempts - 1))).
  { destruct (retryLoop_exhausted (rp_shouldRetry (retryPolicyConfig options r))
                (backoffGenerator (retryPolicyConfig options r))
                (retryListeners (retryPolicyConfig options r)) random fn
                errors F H
                (Z.to_nat (rp_attempts (retryPolicyConfig options r) - 1)) 1
                (startCall s)) as (s' & E & A & _).
    exists s'. split; [exact E | exact A]. }
  destruct E as (s' & E & A). split.
  - rewrite (wrapped_attemptCount fn options policy s s' _ E), A. lia.
  - intros Hb Ht Hr.
    apply (raised_without_fallback fn options policy s s' last U E);
      assumption.
Qed.

Lemma logWith_notFailure (logger : bool) (level : LogLevel) (msg : string)
    (meta : Props) :
  Forall notFailure (logWith logger level msg meta).
Proof.
  unfold logWith. destruct logger; repeat constructor.
Qed.

Lemma notify_notFailure (metrics : option ResilienceMetrics)
    (callback : ResilienceMetrics -> bool) (event : Event) :
  notFailure event -> Forall notFailure (notify metrics callback event).
Proof.
  intros H. unfold notify. destruct metrics as [m|]; [|constructor].
  destruct (callback m); repeat constructor. exact H.
Qed.

(** X21: with a fallback value and no bulkhead or timeout, an operation that
    always fails makes the wrapped function resolve with the value, and no failure
    is reported during the call. *)
Lemma always_failing_uses_fallback (timeoutExecutor : Z -> list Event -> IPolicy)
    (random : nat -> N) (fn : nat -> Outcome) (options : ResilienceOptions)
    (d : PropVal) (s : State) :
  (forall k, exists e, fn k = Rejected e) ->
  fallback options = VPlain d ->
  d <> PUndefined ->
  bulkhead options = None ->
  timeout options = None ->
  let run := withResilience timeoutExecutor random fn options s in
  fst run = Resolved (VPlain d)
  /\ (Forall notFailure (trace s) -> Forall notFailure (trace (snd run))).
Proof.
  intros F V D B T run. unfold run, withResilience.
  set (policy := composePolicies (policies timeoutExecutor random options)).
  assert (E : exists x s1,
             policy (executeWithTracking fn) (startCall s) = (Rejected x, s1)
             /\ (Forall notFailure (trace s) -> Forall notFailure (trace s1))).
  { unfold policy. destruct (retry options) as [r|] eqn:R.
    - rewrite (retry_only_policy _ _ _ _ R B T).
      unfold createRetryPolicy, Cockatiel.retry.
      destruct (retryLoop_keeps_failing
                  (rp_shouldRetry (retryPolicyConfig options r))
                  (backoffGenerator (retryPolicyConfig options r))
                  (retryListeners (retryPolicyConfig options r)) random fn F
                  (Z.to_nat (rp_attempts (retryPolicyConfig options r) - 1)) 1
                  (startCall s)) as (x & s1 & E).
      exists x, s1. split; [exact E|]. intros H.
      change s1 with (snd (Rejected x, s1)). rewrite <- E.
      apply retryLoop_trace_invariant; simpl; intros;
        try apply logWith_notFailure; try exact H.
      apply Forall_app. split; [apply logWith_notFailure|].
      apply notify_notFailure. reflexivity.
    - unfold policies. rewrite R, B, T. simpl composePolicies.
      destruct (F 0%nat) as [e He].
      exists e. eexists. unfold executeWithTracking, startCall. simpl.
      rewrite He. split; [reflexivity|]. simpl. auto. }
  destruct E as (x & s1 & E & K).
  rewrite (wrapped_fallback_value fn options policy s s1 x d V D E).
  cbv zeta. split; [reflexivity|].
  intros H. simpl. unfold successReport, fallbackWarning.
  rewrite !Forall_app. repeat split.
  - exact (K H).
  - apply logWith_notFailure.
  - apply notify_notFailure. reflexivity.
  - apply logWith_notFailure.
Qed.

(** C2, the code at [retry: { attempts: 3, delay: 10, jitter: false }] and an
    operation that always rejects with an HTTP 500 error: the operation is
    invoked 3 times and the wrapped function rejects with the HTTP error
    itself, not with a [RetryExhaustedError] carrying 3 attempts. *)
Theorem exhausted_retries_not_wrapped
    (timeoutExecutor : Z -> list Event -> IPolicy) (random : nat -> N) :
  let run :=
    withResilience timeoutExecutor random (alwaysRejects (createHttpError 500))
      (retryOnlyOptions 3) initialState in
  attemptCount (snd run) = 3%nat
  /\ fst run = Rejected (createHttpError 500)
  /\ fst run <> Rejected (RetryExhaustedError 3 (createHttpError 500))
  /\ instanceofResilienceError (createHttpError 500) = false.
Proof.
  cbv zeta. repeat split.
  intros E. vm_compute in E. discriminate E.
Qed.

(** X11: without retry, bulkhead and timeout the composed policy runs the
    operation directly: one invocation, the result of a success unchanged,
    and the error of a failure unchanged when it is no instance of a
    cockatiel class and its message does not contain "retry". *)
Lemma no_policy_pass_through (timeoutExecutor : Z -> list Event -> IPolicy)
    (random : nat -> N) (fn : nat -> Outcome) (options : ResilienceOptions)
    (s : State) :
  retry options = None ->
  bulkhead options = None ->
  timeout options = None ->
  isUndefined (fallback options) = true ->
  let run := withResilience timeoutExecutor random fn options s in
  attemptCount (snd run) = 1%nat
  /\ (forall v, fn 0%nat = Resolved v -> fst run = Resolved v)
  /\ (forall e, fn 0%nat = Rejected e ->
      instanceofCockatielBulkheadRejectedError e = false ->
      instanceofCockatielTimeoutError e = false ->
      instanceofError e && JsString.includes (message e) "retry" = false ->
      fst run = Rejected e).
Proof.
  intros R B T U run. unfold run, withResilience, policies.
  rewrite R, B, T. simpl composePolicies.
  set (policy := fun fn0 : Comp => fn0).
  assert (E : policy (executeWithTracking fn) (startCall s)
              = (fn 0%nat, {| attemptCount := 1; trace := trace s;
                              bulkheadState := bulkheadState s |}))
    by reflexivity.
  split; [|split].
  - now rewrite (wrapped_attemptCount fn options policy s _ _ E).
  - intros v F. rewrite F in E.
    now rewrite (wrapped_resolved fn options policy s _ v E).
  - intros e F Hb Ht Hr. rewrite F in E.
    apply (raised_without_fallback fn options policy s _ e U E); assumption.
Qed.

(** C8, the code without any option and an operation that rejects with
    [new Error('please retry later')]: the operation is invoked once and the
    wrapped function rejects with a [RetryExhaustedError] reporting 3
    attempts, not with the error of the operation. *)
Theorem unconfigured_wrapper_wraps_retry_message
    (timeoutExecutor : Z -> list Event -> IPolicy) (random : nat -> N) :
  withResilience timeoutExecutor random
    (alwaysRejects (PlainError "please retry later" [])) noOptions initialState
  = (Rejected
       (RetryExhaustedError 3
          (RetryExhaustedError 0 (PlainError "please retry later" []))),
     {| attemptCount := 1; trace := [];
        bulkheadState := bulkheadState initialState |}).
Proof. reflexivity. Qed.

(** ** The bulkhead *)

Lemma bulkhead_refuses (maxConcurrent maxQueue : Z) (rejectListener : list Event)
    (inner : Comp) (s : State) :
  maxConcurrent <= Z.of_nat (inFlight (bulkheadState s)) ->
  maxQueue <= Z.of_nat (List.length (queue (bulkheadState s))) ->
  Cockatiel.bulkhead maxConcurrent maxQueue rejectListener inner s
  = (Rejected (CockatielBulkheadRejectedError "Bulkhead capacity exceeded"),
     emit rejectListener s).
Proof.
  intros C Q. unfold Cockatiel.bulkhead, Cockatiel.acquire.
  destruct (Z.ltb_spec (Z.of_nat (inFlight (bulkheadState s))) maxConcurrent);
    [lia|].
  destruct (Z.ltb_spec (Z.of_nat (List.length (queue (bulkheadState s)))) maxQueue);
    [lia|].
  reflexivity.
Qed.

(** With a bulkhead and no timeout the bulkhead is the outermost policy. *)
Lemma bulkhead_outermost (timeoutExecutor : Z -> list Event -> IPolicy)
    (random : nat -> N) (options : ResilienceOptions) (b : BulkheadOptions)
    (fn : Comp) :
  bulkhead options = Some b ->
  timeout options = None ->
  exists inner,
    composePolicies (policies timeoutExecutor random options) fn
    = createBulkheadPolicy (maxConcurrent b ?? BULKHEAD_DEFAULTS.maxConcurrent)
        (maxQueue b ?? BULKHEAD_DEFAULTS.maxQueue) (logger options)
        (metrics options) (name options) inner.
Proof.
  unfold policies. intros -> ->.
  destruct (retry options) as [r|]; eexists; reflexivity.
Qed.

(** C6: a bulkhead rejection surfaces, without a fallback, as a
    [BulkheadRejectedError] whose [queueSize] and [maxQueue] both are the
    configured [maxQueue] (the default when none is given).  When all slots
    are taken and the queue is full the call is rejected at once: the
    operation is not invoked and the bulkhead state is left as it was, so the
    call is not enqueued. *)
Theorem bulkhead_rejection_reports_maxQueue
    (timeoutExecutor : Z -> list Event -> IPolicy) (random : nat -> N)
    (fn : nat -> Outcome) (options : ResilienceOptions) (b : BulkheadOptions)
    (s : State) :
  bulkhead options = Some b ->
  isUndefined (fallback options) = true ->
  let configured := maxQueue b ?? BULKHEAD_DEFAULTS.maxQueue in
  (forall policy msg s1,
     policy (executeWithTracking fn) (startCall s)
     = (Rejected (CockatielBulkheadRejectedError msg), s1) ->
     fst (wrappedOperation fn options policy s)
     = Rejected (BulkheadRejectedError configured configured))
  /\ (timeout options = None ->
      maxConcurrent b ?? BULKHEAD_DEFAULTS.maxConcurrent
        <= Z.of_nat (inFlight (bulkheadState s)) ->
      configured <= Z.of_nat (List.length (queue (bulkheadState s))) ->
      let run := withResilience timeoutExecutor random fn options s in
      fst run = Rejected (BulkheadRejectedError configured configured)
      /\ bulkheadState (snd run) = bulkheadState s
      /\ attemptCount (snd run) = 0%nat).
Proof.
  intros B U configured.
  assert (Q : configuredMaxQueue options = configured)
    by (unfold configuredMaxQueue; now rewrite B).
  assert (G : forall policy msg s1,
             policy (executeWithTracking fn) (startCall s)
             = (Rejected (CockatielBulkheadRejectedError msg), s1) ->
             wrappedOperation fn options policy s
             = (Rejected (BulkheadRejectedError configured configured),
                emit (failureReport options (attemptCount s1)
                        (BulkheadRejectedError configured configured)) s1)).
  { intros policy msg s1 H.
    rewrite (wrapped_rejected_no_fallback fn options policy s s1 _ U H).
    assert (X : transformCockatielError
                  (transformCockatielError (CockatielBulkheadRejectedError msg)
                     (callErrorConfig options))
                  (failureErrorConfig options)
                = BulkheadRejectedError configured configured).
    { change (transformCockatielError (CockatielBulkheadRejectedError msg)
                (callErrorConfig options))
        with (BulkheadRejectedError (configuredMaxQueue options)
                (configuredMaxQueue options)).
      rewrite transform_bulkhead_fixed, Q. reflexivity. }
    cbv zeta. rewrite X. reflexivity. }
  split.
  - intros policy msg s1 H. now rewrite (G policy msg s1 H).
  - intros T C F run. unfold run, withResilience.
    destruct (bulkhead_outermost timeoutExecutor random options b
                (executeWithTracking fn) B T) as (inner & P).
    set (policy := composePolicies (policies timeoutExecutor random options)) in *.
    assert (E : policy (executeWithTracking fn) (startCall s)
                = (Rejected (CockatielBulkheadRejectedError
                               "Bulkhead capacity exceeded"),
                   emit (logWith (logger options) LWarn
                           "Bulkhead rejected request - queue full"
                           [("queueSize", PNumber configured);
                            ("maxQueue", PNumber configured);
                            ("operation", nameProp (name options))]
                         ++ notify (metrics options) onBulkheadRejected
                              (BulkheadEvent configured configured
                                 (name options)))%list
                     (startCall s))).
    { rewrite P. unfold createBulkheadPolicy.
      apply bulkhead_refuses; assumption. }
    rewrite (G policy _ _ E). repeat split.
Qed.

Lemma bulkhead_rejection_reports_maxQueue_witness :
  let run :=
    withResilience neverExpires zeroDraws (fun _ => Pending) singleSlotOptions
      saturatedState in
  fst run = Rejected (BulkheadRejectedError 0 0)
  /\ bulkheadState (snd run) = bulkheadState saturatedState
  /\ attemptCount (snd run) = 0%nat.
Proof.
  refine (proj2 (bulkhead_rejection_reports_maxQueue neverExpires zeroDraws
                   (fun _ => Pending) singleSlotOptions singleSlot
                   saturatedState eq_refl eq_refl) eq_refl _ _);
    simpl; lia.
Defined.

(** ** The backoff *)

(** C7: when [delay <= maxDelay], the computed delay of attempt [attempt] is
    [min(delay * 2^(attempt-1), maxDelay)] for the exponential backoff and
    [delay] for the fixed one; the computed and the realized delay lie in
    [[0, maxDelay]], and without jitter the realized delay is the computed
    one. *)
Theorem backoff_delay_bounds (config : RetryPolicyConfig) (attempt : nat)
    (draw : N) :
  (rp_delay config <= rp_maxDelay config)%N ->
  let b := backoffGenerator config in
  (rp_backoff config = exponential ->
   Cockatiel.computedDelay b attempt
   = N.min (rp_delay config * 2 ^ N.of_nat (attempt - 1)) (rp_maxDelay config))
  /\ (rp_backoff config = fixed ->
      Cockatiel.computedDelay b attempt = rp_delay config)
  /\ (0 <= Cockatiel.computedDelay b attempt <= rp_maxDelay config)%N
  /\ (0 <= Cockatiel.realizedDelay b attempt draw <= rp_maxDelay config)%N
  /\ (rp_jitter config = false ->
      Cockatiel.realizedDelay b attempt draw = Cockatiel.computedDelay b attempt).
Proof.
  intros L b. unfold b, backoffGenerator.
  destruct (rp_backoff config); simpl.
  - split; [reflexivity|]. split; [discriminate|].
    assert (C : (N.min (rp_delay config * 2 ^ N.of_nat (attempt - 1))
                   (rp_maxDelay config) <= rp_maxDelay config)%N)
      by apply N.le_min_r.
    split; [split; [apply N.le_0_l | exact C]|].
    destruct (rp_jitter config); simpl.
    + split; [|discriminate].
      split; [apply N.le_0_l|].
      pose proof (N.mod_lt draw
                    (N.min (rp_delay config * 2 ^ N.of_nat (attempt - 1))
                       (rp_maxDelay config) + 1)) as M.
      lia.
    + split; [split; [apply N.le_0_l | exact C] | reflexivity].
  - split; [discriminate|]. split; [reflexivity|].
    repeat split; try apply N.le_0_l; assumption.
Qed.

Lemma backoff_delay_bounds_witness :
  (0 <= Cockatiel.computedDelay (backoffGenerator cappedBackoff) 3
   <= rp_maxDelay cappedBackoff)%N.
Proof.
  refine (proj1 (proj2 (proj2 (backoff_delay_bounds cappedBackoff 3 0%N _)))).
  simpl. lia.
Defined.

(** ** The default error filter *)

(** C5, counterexample: [new Error('Network response was not ok')] with
    [status = 404] has a message that indicates a network failure and is not
    retried. *)
Lemma network_message_with_client_status : ~ classifier_as_stated.
Proof.
  intros (_ & _ & H & _).
  specialize (H responseNotOk eq_refl (or_intror eq_refl)).
  discriminate H.
Qed.

Lemma status_makes_http_error (e : JsError) (c : Z) :
  instanceofError e = true -> getStatusCode e = Some c -> isHttpError e = true.
Proof.
  unfold isHttpError, getStatusCode. intros -> H.
  destruct (isObject e); [|discriminate H].
  cbv zeta in H.
  destruct (hasKey "status" (ownProps e)); [reflexivity|].
  destruct (hasKey "statusCode" (ownProps e)); [reflexivity|].
  destruct (hasKey "response" (ownProps e)); [reflexivity|].
  discriminate H.
Qed.

Lemma server_status_retryable (c : Z) : 500 <= c -> nonRetryableStatus c = false.
Proof.
  intros H. unfold nonRetryableStatus, NON_RETRYABLE_STATUS_CODES.
  assert (K : forall k, k < 500 -> (c =? k) = false)
    by (intros k L; apply Z.eqb_neq; lia).
  cbn [existsb]. rewrite !K by lia. reflexivity.
Qed.

(** C5, amended: for an [Error] whose status code (the first number among
    [status], [statusCode] and [response.status]) is [c], the filter answers
    [false] when [c] is one of 400, 401, 403, 404, 422 and [true] when
    [c >= 500]; it answers [true] for an [Error] with one of the four network
    error codes, or whose lower-cased message contains "fetch failed" or
    "network", unless its status code is one of 400, 401, 403, 404, 422; and
    [false] for everything else. *)
Theorem default_filter_classification :
  (forall e c, instanceofError e = true -> getStatusCode e = Some c ->
               nonRetryableStatus c = true -> isRetryableError e = false)
  /\ (forall e c, instanceofError e = true -> getStatusCode e = Some c ->
                  500 <= c -> isRetryableError e = true)
  /\ (forall e, instanceofError e = true ->
                hasNetworkErrorCode e = true \/ hasNetworkMessage e = true ->
                (forall c, getStatusCode e = Some c -> nonRetryableStatus c = false) ->
                isRetryableError e = true)
  /\ (forall e,
        ~ (exists c, instanceofError e = true /\ getStatusCode e = Some c
                     /\ (nonRetryableStatus c = true \/ 500 <= c)) ->
        ~ (instanceofError e = true
           /\ (hasNetworkErrorCode e = true \/ hasNetworkMessage e = true)) ->
        isRetryableError e = false).
Proof.
  split; [|split; [|split]].
  - intros e c E S N. unfold isRetryableError.
    rewrite (status_makes_http_error e c E S), S, N. reflexivity.
  - intros e c E S L. unfold isRetryableError.
    rewrite (status_makes_http_error e c E S), S.
    rewrite (server_status_retryable c L).
    destruct (Z.leb_spec 500 c); [reflexivity | lia].
  - intros e E W S. unfold isRetryableError.
    assert (N : isNetworkError e = true).
    { unfold isNetworkError. rewrite E.
      destruct (hasNetworkErrorCode e); [reflexivity|].
      destruct W as [W|W]; [discriminate W | now rewrite W]. }
    destruct (isHttpError e); cbv zeta; [|now rewrite N].
    destruct (getStatusCode e) as [c|]; [|now rewrite N].
    rewrite (S c eq_refl).
    destruct (500 <=? c); [reflexivity | now rewrite N].
  - intros e S W. unfold isRetryableError.
    assert (N : isNetworkError e = false).
    { destruct (isNetworkError e) eqn:N; [|reflexivity].
      exfalso. apply W. unfold isNetworkError in N.
      destruct (instanceofError e); [|discriminate N].
      destruct (hasNetworkErrorCode e); [auto|].
      destruct (hasNetworkMessage e); [auto | discriminate N]. }
    rewrite N.
    destruct (isHttpError e) eqn:Hh; cbv zeta; [|reflexivity].
    destruct (getStatusCode e) as [c|] eqn:Sc; [|reflexivity].
    destruct (nonRetryableStatus c); [reflexivity|].
    destruct (Z.leb_spec 500 c) as [L|L]; [|reflexivity].
    exfalso. apply S. exists c. unfold isHttpError in Hh.
    destruct (instanceofError e); [auto | discriminate Hh].
Qed.

Lemma default_filter_classification_witness :
  isRetryableError (createHttpError 404) = false
  /\ isRetryableError (createHttpError 503) = true
  /\ isRetryableError (createNetworkError "ETIMEDOUT") = true.
Proof.
  destruct default_filter_classification as (C1 & C2 & C3 & _).
  split; [|split].
  - exact (C1 (createHttpError 404) 404 eq_refl eq_refl eq_refl).
  - refine (C2 (createHttpError 503) 503 eq_refl eq_refl _). lia.
  - refine (C3 (createNetworkError "ETIMEDOUT") eq_refl (or_introl eq_refl) _).
    intros c H. discriminate H.
Defined.

(** ** The delays the retry loop emits *)

Lemma realizedDelay_capped (config : RetryPolicyConfig) (attempt : nat)
    (draw : N) :
  (rp_delay config <= rp_maxDelay config)%N ->
  (Cockatiel.realizedDelay (backoffGenerator config) attempt draw
   <= rp_maxDelay config)%N.
Proof.
  intros L. unfold backoffGenerator.
  destruct (rp_backoff config); simpl; [|exact L].
  pose proof (N.le_min_r (rp_delay config * 2 ^ N.of_nat (attempt - 1))
                (rp_maxDelay config)) as C.
  destruct (rp_jitter config); simpl; [|exact C].
  pose proof (N.mod_lt draw
                (N.min (rp_delay config * 2 ^ N.of_nat (attempt - 1))
                   (rp_maxDelay config) + 1)) as M.
  lia.
Qed.

Lemma logWith_capped (maxDelay : N) (logger : bool) (level : LogLevel)
    (msg : string) (meta : Props) :
  Forall (delayCapped maxDelay) (logWith logger level msg meta).
Proof.
  unfold logWith. destruct logger; repeat constructor.
Qed.

(** X22, backoff cap: every retry event the loop of a retry policy reports
    carries a delay of at most [maxDelay], when [delay] is at most [maxDelay]. *)
Lemma emitted_retry_delays_capped (config : RetryPolicyConfig)
    (random : nat -> N) (fn : nat -> Outcome) :
  (rp_delay config <= rp_maxDelay config)%N ->
  forall (retriesLeft attempt : nat) (s : State),
    Forall (delayCapped (rp_maxDelay config)) (trace s) ->
    Forall (delayCapped (rp_maxDelay config))
      (trace (snd (Cockatiel.retryLoop (rp_shouldRetry config)
                     (backoffGenerator config) (retryListeners config) random
                     retriesLeft attempt (executeWithTracking fn) s))).
Proof.
  intros L retriesLeft attempt s.
  apply retryLoop_trace_invariant; simpl; intros;
    try apply logWith_capped.
  apply Forall_app. split; [apply logWith_capped|].
  unfold notify. destruct (rp_metrics config) as [m|]; [|constructor].
  destruct (onRetry m); constructor; [|constructor].
  simpl. now apply realizedDelay_capped.
Qed.

Example capped_delays :
  retryDelays
    (trace (snd (createRetryPolicy zeroDraws
                   {| rp_attempts := 5; rp_delay := 50%N; rp_maxDelay := 100%N;
                      rp_backoff := exponential; rp_jitter := false;
                      rp_shouldRetry := isRetryableError; rp_logger := false;
                      rp_metrics := Some allMetrics; rp_name := Some "test" |}
                   (executeWithTracking
                      (fun k => if Nat.ltb k 4 then Rejected (createHttpError 500)
                                else Resolved (VPlain (PBool true))))
                   initialState)))
  = [50; 100; 100; 100]%N.
Proof. reflexivity. Qed.


(** ** The test files, replayed *)

Section Tests.

Variable timeoutExecutor : Z -> list Event -> IPolicy.
Variable random : nat -> N.

(** retry.test.ts, "should return the result if a subsequent retry
    succeeds" *)
Example test_subsequent_retry_succeeds :
  let r := withResilience timeoutExecutor random (fun k => match k with
                         | 0%nat => Rejected (createHttpError 500)
                         | 1%nat => Rejected (createHttpError 503)
                         | _ => Resolved successValue
                         end) (retryOnlyOptions 3) initialState in
  fst r = Resolved successValue /\ attemptCount (snd r) = 3%nat.
Proof. split; reflexivity. Qed.

(** retry.test.ts, "should not retry when operation succeeds on first
    attempt" *)
Example test_first_attempt_succeeds :
  let r := withResilience timeoutExecutor random (fun _ => Resolved successValue) (retryOnlyOptions 3) initialState in
  fst r = Resolved successValue /\ attemptCount (snd r) = 1%nat.
Proof. split; reflexivity. Qed.

(** retry.test.ts, "should not retry when response status is 400" *)
Example test_status_400_not_retried :
  attemptCount (snd (withResilience timeoutExecutor random (alwaysRejects (createHttpError 400))
                       (retryOnlyOptions 3) initialState)) = 1%nat.
Proof. reflexivity. Qed.

(** retry.test.ts, "should retry on network errors (ECONNRESET)" *)
Example test_network_error_retried :
  let r := withResilience timeoutExecutor random (fun k => match k with
                         | 0%nat => Rejected (createNetworkError "ECONNRESET")
                         | _ => Resolved successValue
                         end) (retryOnlyOptions 3) initialState in
  fst r = Resolved successValue /\ attemptCount (snd r) = 2%nat.
Proof. split; reflexivity. Qed.

(** retry.test.ts, "should respect custom shouldRetry function" *)
Example test_custom_filter :
  let rateLimited (error : JsError) :=
    match getKey "status" (ownProps error) with
    | PNumber 429 => true
    | _ => false
    end in
  let options :=
    {| name := Some "test";
       retry := Some {| attempts := Some 3; delay := Some 10%N; maxDelay := None;
                        backoff := None; jitter := Some false;
                        shouldRetry := Some rateLimited |};
       bulkhead := None; timeout := None; fallback := VPlain PUndefined;
       logger := false; metrics := None |} in
  let r := withResilience timeoutExecutor random (fun k => match k with
                         | 0%nat => Rejected (createHttpError 429)
                         | _ => Resolved successValue
                         end) options initialState in
  fst r = Resolved successValue /\ attemptCount (snd r) = 2%nat.
Proof. split; reflexivity. Qed.

(** resilience.test.ts, "should throw on first error without retry
    configuration" *)
Example test_no_retry_configuration :
  let r := withResilience timeoutExecutor random (alwaysRejects (PlainError "Fail" [])) noOptions initialState in
  fst r = Rejected (PlainError "Fail" []) /\ attemptCount (snd r) = 1%nat.
Proof. split; reflexivity. Qed.

(** resilience.test.ts, "should call onFailure with error and attempt
    count" *)
Example test_onFailure :
  let options :=
    {| name := Some "test-failure"; retry := Some (retryWithAttempts 2);
       bulkhead := None; timeout := None; fallback := VPlain PUndefined;
       logger := false;
       metrics := Some {| onRetry := false; onSuccess := false; onFailure := true;
                          onBulkheadRejected := false; onTimeout := false |} |} in
  trace (snd (withResilience timeoutExecutor random (alwaysRejects (createHttpError 500)) options initialState))
  = [FailureEvent 2 (createHttpError 500) (Some "test-failure")].
Proof. reflexivity. Qed.

(** bulkhead.test.ts, "should call onBulkheadRejected when request is
    rejected": the first call never settles and keeps the only slot. *)
Example test_onBulkheadRejected :
  let first := withResilience timeoutExecutor random (fun _ => Pending) singleSlotOptions initialState in
  let second := withResilience timeoutExecutor random (fun _ => Pending) singleSlotOptions (snd first) in
  fst first = Pending
  /\ fst second = Rejected (BulkheadRejectedError 0 0)
  /\ trace (snd second)
     = [BulkheadEvent 0 0 (Some "test-bulkhead");
        FailureEvent 0 (BulkheadRejectedError 0 0) (Some "test-bulkhead")].
Proof. repeat split; reflexivity. Qed.

(** bulkhead.test.ts, "should include queue information in
    BulkheadRejectedError": one call runs, one waits, the third is
    rejected. *)
Example test_queue_information :
  let options :=
    {| name := Some "test"; retry := None;
       bulkhead := Some {| maxConcurrent := Some 1; maxQueue := Some 1 |};
       timeout := None; fallback := VPlain PUndefined; logger := false;
       metrics := None |} in
  let first := withResilience timeoutExecutor random (fun _ => Pending) options initialState in
  let second := withResilience timeoutExecutor random (fun _ => Pending) options (snd first) in
  let third := withResilience timeoutExecutor random (fun _ => Pending) options (snd second) in
  fst second = Pending
  /\ queue (bulkheadState (snd second)) = [0%nat]
  /\ fst third = Rejected (BulkheadRejectedError 1 1)
  /\ bulkheadState (snd third) = bulkheadState (snd second).
Proof. repeat split; reflexivity. Qed.

End Tests.


(** * Further properties of the code *)

(** ** Text, continued *)

Module TextFacts.
Import JsString StringFacts.


Lemma length_append (a b : string) :
  String.length (a ++ b) = (String.length a + String.length b)%nat.
Proof.
  induction a as [|x a IH]; simpl; [reflexivity | now rewrite IH].
Qed.

Lemma toLowerCase_app (a b : string) :
  toLowerCase (a ++ b) = toLowerCase a ++ toLowerCase b.
Proof.
  induction a as [|c a IH]; simpl; [reflexivity | now rewrite IH].
Qed.

Lemma lowerAscii_idem (c : ascii) : lowerAscii (lowerAscii c) = lowerAscii c.
Proof.
  destruct c as [[] [] [] [] [] [] [] []]; reflexivity.
Qed.

Lemma toLowerCase_idem (s : string) : toLowerCase (toLowerCase s) = toLowerCase s.
Proof.
  induction s as [|c s IH]; simpl; [reflexivity|].
  now rewrite lowerAscii_idem, IH.
Qed.

Lemma chars_toLowerCase (s : string) :
  chars (toLowerCase s) = map lowerAscii (chars s).
Proof.
  induction s as [|c s IH]; simpl; [reflexivity | now rewrite IH].
Qed.

Lemma uint_chars_digits (d : Decimal.uint) (c : ascii) :
  In c (chars (NilEmpty.string_of_uint d)) -> In c digitChars.
Proof.
  induction d as [|d IH|d IH|d IH|d IH|d IH|d IH|d IH|d IH|d IH|d IH]; simpl;
    [tauto | intros [<-|H]; [simpl; tauto | exact (IH H)] ..].
Qed.

Lemma ofZ_chars_digits (n : Z) (c : ascii) :
  In c (chars (ofZ n)) -> In c digitChars.
Proof.
  assert (U : forall d, In c (chars (NilZero.string_of_uint d)) -> In c digitChars).
  { intros d. pose proof (uint_chars_digits d c) as H.
    destruct d; simpl in *; try exact H.
    intros [<-|[]]. tauto. }
  unfold ofZ.
  destruct (Z.to_int n) as [d|d]; unfold NilZero.string_of_int.
  - apply U.
  - simpl. intros [<-|E]; [tauto | exact (U d E)].
Qed.

(** A text that lacks a character of the needle does not include it. *)
Lemma includes_needs_char (hay needle : string) (c : ascii) :
  In c (chars needle) -> ~ In c (chars hay) -> includes hay needle = false.
Proof.
  intros N H. destruct (includes hay needle) eqn:E; [|reflexivity].
  exfalso. apply H. eapply includes_chars; eassumption.
Qed.

(** Lower-casing the digits of a number gives no letter. *)
Lemma lowered_digit_not_letter (c x : ascii) :
  In c digitChars -> In x ["w"; "c"]%char -> lowerAscii c <> x.
Proof.
  unfold digitChars. simpl.
  intros H X E. subst x.
  repeat (destruct H as [<-|H];
          [destruct X as [X|[X|[]]]; vm_compute in X; discriminate X|]).
  exact H.
Qed.

End TextFacts.

(** ** The default error filter, continued *)

(** Decide that a character does not occur in a literal text. *)
Ltac literal_lacks :=
  let H := fresh "H" in
  vm_compute; intros H;
  repeat (destruct H as [H|H]; [discriminate H|]); exact H.

Section FilterFacts.
Import JsString StringFacts TextFacts.

Lemma number_lowered_lacks (x : ascii) (n : Z) :
  In x ["w"; "c"]%char -> ~ In x (chars (toLowerCase (ofZ n))).
Proof.
  intros X H. rewrite chars_toLowerCase in H.
  apply in_map_iff in H as (c & E & C).
  apply ofZ_chars_digits in C.
  exact (lowered_digit_not_letter c x C X E).
Qed.

Lemma timeout_message_not_network (duration : Z) :
  hasNetworkMessage (TimeoutError duration) = false.
Proof.
  unfold hasNetworkMessage.
  change (message (TimeoutError duration))
    with ("Operation timed out after " ++ (ofZ duration ++ "ms")).
  rewrite !toLowerCase_app.
  assert (L : forall x, In x ["w"; "c"]%char ->
              ~ In x (chars (toLowerCase "Operation timed out after "
                               ++ (toLowerCase (ofZ duration) ++ toLowerCase "ms")))).
  { intros x X. rewrite !chars_app, !in_app_iff.
    intros [H|[H|H]]; [|exact (number_lowered_lacks x duration X H)|];
      destruct X as [<-|[<-|[]]]; revert H; literal_lacks. }
  rewrite (includes_needs_char _ "fetch failed" "c"%char);
    [|simpl; tauto | apply L; simpl; tauto].
  rewrite (includes_needs_char _ "network" "w"%char);
    [reflexivity | simpl; tauto | apply L; simpl; tauto].
Qed.

Lemma bulkhead_message_not_network (queueSize maxQueue : Z) :
  hasNetworkMessage (BulkheadRejectedError queueSize maxQueue) = false.
Proof.
  unfold hasNetworkMessage.
  change (message (BulkheadRejectedError queueSize maxQueue))
    with ("Bulkhead queue full: "
            ++ (ofZ queueSize ++ ("/" ++ (ofZ maxQueue ++ " requests queued")))).
  rewrite !toLowerCase_app.
  assert (L : forall x, In x ["w"; "c"]%char ->
              ~ In x (chars (toLowerCase "Bulkhead queue full: "
                               ++ (toLowerCase (ofZ queueSize)
                                   ++ (toLowerCase "/"
                                       ++ (toLowerCase (ofZ maxQueue)
                                           ++ toLowerCase " requests queued")))))).
  { intros x X. rewrite !chars_app, !in_app_iff.
    intros [H|[H|[H|[H|H]]]];
      [|exact (number_lowered_lacks x queueSize X H)|
       |exact (number_lowered_lacks x maxQueue X H)|];
      destruct X as [<-|[<-|[]]]; revert H; literal_lacks. }
  rewrite (includes_needs_char _ "fetch failed" "c"%char);
    [|simpl; tauto | apply L; simpl; tauto].
  rewrite (includes_needs_char _ "network" "w"%char);
    [reflexivity | simpl; tauto | apply L; simpl; tauto].
Qed.

(** X1: an error whose status code is none of 400, 401, 403, 404, 422 and
    below 500 (429, say), or that has no status code, is decided by the
    network test alone. *)
Theorem unclassified_status_falls_through (e : JsError) :
  (forall c, getStatusCode e = Some c -> nonRetryableStatus c = false /\ c < 500) ->
  isRetryableError e = isNetworkError e.
Proof.
  intros H. unfold isRetryableError.
  destruct (isHttpError e); cbv zeta;
    [|destruct (isNetworkError e); reflexivity].
  destruct (getStatusCode e) as [c|];
    [|destruct (isNetworkError e); reflexivity].
  destruct (H c eq_refl) as [N L]. rewrite N.
  destruct (Z.leb_spec 500 c); [lia|].
  destruct (isNetworkError e); reflexivity.
Qed.

Lemma unclassified_status_falls_through_witness :
  isRetryableError (createHttpError 429) = isNetworkError (createHttpError 429).
Proof.
  apply (unclassified_status_falls_through (createHttpError 429)).
  intros c H. injection H as <-. split; [reflexivity | lia].
Defined.

(** X2: a thrown value that is not an [Error] is never retryable, whatever
    properties it carries, although [getStatusCode] reads the status of such
    an object. *)
Theorem non_error_never_retryable :
  (forall v, isRetryableError (NonError v) = false)
  /\ (forall c rest,
        getStatusCode (NonError (NEObject (("status", PNumber c) :: rest)))
        = Some c).
Proof.
  split.
  - intros v. reflexivity.
  - intros c rest. reflexivity.
Qed.

(** X3: the message is tested in lower case, so the filter does not see the
    case of its letters: two errors with the same properties whose messages
    agree in lower case get the same answer, and lower-casing a message
    changes nothing. *)
Theorem message_case_ignored (props : Props) :
  (forall m1 m2,
     toLowerCase m1 = toLowerCase m2 ->
     isRetryableError (PlainError m1 props) = isRetryableError (PlainError m2 props))
  /\ (forall m,
        isRetryableError (PlainError (toLowerCase m) props)
        = isRetryableError (PlainError m props)).
Proof.
  assert (G : forall m1 m2,
             toLowerCase m1 = toLowerCase m2 ->
             isRetryableError (PlainError m1 props)
             = isRetryableError (PlainError m2 props)).
  { intros m1 m2 E.
    unfold isRetryableError, isNetworkError, hasNetworkMessage. simpl message.
    now rewrite E. }
  split; [exact G|].
  intros m. apply G. apply toLowerCase_idem.
Qed.

Lemma message_case_ignored_witness :
  isRetryableError (PlainError "FETCH FAILED" [])
  = isRetryableError (PlainError "fetch failed" []).
Proof.
  apply (proj1 (message_case_ignored []) "FETCH FAILED" "fetch failed").
  reflexivity.
Defined.

(** X4: the default filter never retries the [TimeoutError] and the
    [BulkheadRejectedError] of this package, whatever their fields. *)
Theorem own_errors_not_retryable :
  (forall duration, isRetryableError (TimeoutError duration) = false)
  /\ (forall queueSize maxQueue,
        isRetryableError (BulkheadRejectedError queueSize maxQueue) = false).
Proof.
  split.
  - intros duration. unfold isRetryableError, isNetworkError.
    simpl isHttpError. cbv iota zeta.
    rewrite timeout_message_not_network. reflexivity.
  - intros queueSize maxQueue. unfold isRetryableError, isNetworkError.
    simpl isHttpError. cbv iota zeta.
    rewrite bulkhead_message_not_network. reflexivity.
Qed.

End FilterFacts.

Section WrappedErrorFacts.
Import JsString StringFacts TextFacts.




End WrappedErrorFacts.

(** ** Error transformation, continued *)

Section TransformFacts.
Import JsString StringFacts.

(** X6: [transformError] of policies.ts never returns an instance of a
    cockatiel class and leaves its own results unchanged, and
    [transformCockatielError] differs from it only where the last test
    applies: there it wraps, elsewhere both return the same error. *)
Theorem transformError_agrees (error : JsError) (config : ErrorConfig)
    (other : TransformConfig) :
  instanceofCockatielBulkheadRejectedError
    (transformError error (withoutAttempts config)) = false
  /\ instanceofCockatielTimeoutError
       (transformError error (withoutAttempts config)) = false
  /\ transformError (transformError error (withoutAttempts config)) other
     = transformError error (withoutAttempts config)
  /\ transformCockatielError error config
     = if looksExhausted error
       then RetryExhaustedError (cfgAttempts config ?? 0) error
       else transformError error (withoutAttempts config).
Proof.
  unfold transformError, transformCockatielError, looksExhausted.
  destruct error; simpl; repeat split;
    try reflexivity;
    match goal with
    | |- context [includes ?h ?n] => destruct (includes h n); reflexivity
    end.
Qed.

(** X7: once transformed, an error that the last test does not accept is not
    changed by a second transformation, whatever the second configuration:
    the fields of a [BulkheadRejectedError] or [TimeoutError] are those of the
    first configuration. *)
Theorem second_transformation_keeps (error : JsError) (first second : ErrorConfig) :
  looksExhausted error = false ->
  transformCockatielError (transformCockatielError error first) second
  = transformCockatielError error first.
Proof.
  intros L.
  destruct (instanceofCockatielBulkheadRejectedError error) eqn:B.
  { destruct error; try discriminate B.
    change (transformCockatielError (CockatielBulkheadRejectedError msg) first)
      with (BulkheadRejectedError (cfgMaxQueue first ?? 0) (cfgMaxQueue first ?? 0)).
    apply transform_bulkhead_fixed. }
  destruct (instanceofCockatielTimeoutError error) eqn:T.
  { destruct error; try discriminate T.
    change (transformCockatielError (CockatielTimeoutError msg) first)
      with (TimeoutError (cfgTimeout first ?? 0)).
    apply transform_timeout_fixed. }
  unfold looksExhausted in L. rewrite B, T in L. simpl in L.
  rewrite (transform_passthrough error first B T L).
  apply transform_passthrough; assumption.
Qed.

Lemma second_transformation_keeps_witness :
  transformCockatielError
    (transformCockatielError (CockatielTimeoutError "Operation cancelled")
       (callErrorConfig noOptions))
    (failureErrorConfig (retryOnlyOptions 3))
  = TimeoutError 30000.
Proof.
  exact (second_transformation_keeps (CockatielTimeoutError "Operation cancelled")
           (callErrorConfig noOptions) (failureErrorConfig (retryOnlyOptions 3))
           eq_refl).
Defined.

(** X8: an error the last test accepts is wrapped, and the result is accepted
    again, since the message of a [RetryExhaustedError] ends with the message
    it wraps: every further transformation adds a layer. *)
Theorem wrapped_error_is_wrapped_again (error : JsError) (config : ErrorConfig) :
  looksExhausted error = true ->
  transformCockatielError error config
  = RetryExhaustedError (cfgAttempts config ?? 0) error
  /\ forall n : nat,
       looksExhausted
         (Nat.iter n (fun e => transformCockatielError e config) error) = true.
Proof.
  intros L.
  assert (W : forall e, looksExhausted e = true ->
              transformCockatielError e config
              = RetryExhaustedError (cfgAttempts config ?? 0) e).
  { intros e H. unfold looksExhausted in H.
    apply andb_true_iff in H as [H R]. apply andb_true_iff in H as [H E].
    apply andb_true_iff in H as [B T].
    apply negb_true_iff in B. apply negb_true_iff in T.
    now apply transform_retry. }
  split; [now apply W|].
  induction n as [|n IH]; [exact L|].
  rewrite Nat.iter_succ. rewrite (W _ IH).
  unfold looksExhausted. simpl.
  change (includes (message (RetryExhaustedError (cfgAttempts config ?? 0)
                               (Nat.iter n (fun e => transformCockatielError e config)
                                  error))) "retry" = true).
  change (message (RetryExhaustedError (cfgAttempts config ?? 0)
                     (Nat.iter n (fun e => transformCockatielError e config) error)))
    with ("Retry exhausted after "
            ++ (ofZ (cfgAttempts config ?? 0)
                ++ (" attempts: "
                    ++ message (Nat.iter n (fun e => transformCockatielError e config)
                                  error)))).
  do 3 apply includes_app_r.
  unfold looksExhausted in IH. apply andb_true_iff in IH as [_ R]. exact R.
Qed.

Lemma wrapped_error_is_wrapped_again_witness :
  transformCockatielError (PlainError "please retry later" [])
    (callErrorConfig noOptions)
  = RetryExhaustedError 0 (PlainError "please retry later" []).
Proof.
  exact (proj1 (wrapped_error_is_wrapped_again (PlainError "please retry later" [])
                  (callErrorConfig noOptions) eq_refl)).
Defined.

End TransformFacts.

(** ** The policies, continued *)

Lemma logWith_delayIs (d : N) (logger : bool) (level : LogLevel) (msg : string)
    (meta : Props) :
  Forall (delayIs d) (logWith logger level msg meta).
Proof.
  unfold logWith. destruct logger; repeat constructor.
Qed.

(** X9: with the fixed backoff neither [maxDelay] nor [jitter] is used: every
    retry event a retry policy reports carries the delay [delay] itself, also
    when it is above [maxDelay]. *)
Theorem fixed_backoff_reports_delay (config : RetryPolicyConfig)
    (random : nat -> N) (fn : nat -> Outcome) (s : State) :
  rp_backoff config = fixed ->
  Forall (delayIs (rp_delay config)) (trace s) ->
  Forall (delayIs (rp_delay config))
    (trace (snd (createRetryPolicy random config (executeWithTracking fn) s))).
Proof.
  intros B. unfold createRetryPolicy, Cockatiel.retry.
  apply retryLoop_trace_invariant; simpl; intros;
    try apply logWith_delayIs.
  apply Forall_app. split; [apply logWith_delayIs|].
  unfold notify. destruct (rp_metrics config) as [m|]; [|constructor].
  destruct (onRetry m); constructor; [|constructor].
  simpl. unfold backoffGenerator. rewrite B. reflexivity.
Qed.

Lemma fixed_backoff_reports_delay_witness :
  Forall (delayIs 500%N)
    (trace (snd (createRetryPolicy zeroDraws
                   {| rp_attempts := 3; rp_delay := 500%N; rp_maxDelay := 100%N;
                      rp_backoff := fixed; rp_jitter := true;
                      rp_shouldRetry := isRetryableError; rp_logger := false;
                      rp_metrics := Some allMetrics; rp_name := None |}
                   (executeWithTracking (alwaysRejects (createHttpError 500)))
                   initialState))).
Proof.
  apply (fixed_backoff_reports_delay
           {| rp_attempts := 3; rp_delay := 500%N; rp_maxDelay := 100%N;
              rp_backoff := fixed; rp_jitter := true;
              rp_shouldRetry := isRetryableError; rp_logger := false;
              rp_metrics := Some allMetrics; rp_name := None |}).
  - reflexivity.
  - simpl. constructor.
Defined.

(** X10: [composePolicies] nests its policies in the order of the list, the
    first outermost, also for no policy and for one; with all three options
    the wrapped function runs the timeout around the bulkhead around the
    retry around the operation. *)
Theorem policies_nest_in_order (timeoutExecutor : Z -> list Event -> IPolicy)
    (random : nat -> N) (fn : Comp) :
  (forall ps : list IPolicy,
     composePolicies ps fn
     = fold_right (fun (policy : IPolicy) inner => policy inner) fn ps)
  /\ (forall options t b r,
        timeout options = Some t ->
        bulkhead options = Some b ->
        retry options = Some r ->
        composePolicies (policies timeoutExecutor random options) fn
        = createTimeoutPolicy timeoutExecutor t (logger options) (metrics options)
            (name options)
            (createBulkheadPolicy
               (maxConcurrent b ?? BULKHEAD_DEFAULTS.maxConcurrent)
               (maxQueue b ?? BULKHEAD_DEFAULTS.maxQueue)
               (logger options) (metrics options) (name options)
               (createRetryPolicy random (retryPolicyConfig options r) fn))).
Proof.
  split.
  - intros [|p [|q ps]]; reflexivity.
  - intros options t b r T B R. unfold policies. rewrite T, B, R. reflexivity.
Qed.

Lemma policies_nest_in_order_witness :
  let options :=
    {| name := None; retry := Some (retryWithAttempts 2);
       bulkhead := Some singleSlot; timeout := Some 100;
       fallback := VPlain PUndefined; logger := false; metrics := None |} in
  composePolicies (policies neverExpires zeroDraws options)
    (executeWithTracking (alwaysRejects (createHttpError 500)))
  = createTimeoutPolicy neverExpires 100 false None None
      (createBulkheadPolicy 1 0 false None None
         (createRetryPolicy zeroDraws
            (retryPolicyConfig options (retryWithAttempts 2))
            (executeWithTracking (alwaysRejects (createHttpError 500))))).
Proof.
  exact (proj2 (policies_nest_in_order neverExpires zeroDraws
                  (executeWithTracking (alwaysRejects (createHttpError 500))))
           {| name := None; retry := Some (retryWithAttempts 2);
              bulkhead := Some singleSlot; timeout := Some 100;
              fallback := VPlain PUndefined; logger := false; metrics := None |}
           100 singleSlot (retryWithAttempts 2) eq_refl eq_refl eq_refl).
Defined.

(** ** The wrapped function, continued *)

(** The wrapped function without any policy, at an operation that rejects
    with a plain error: the error comes back as it is. *)
Lemma pass_through_witness :
  let run :=
    withResilience neverExpires zeroDraws (alwaysRejects (PlainError "Fail" []))
      noOptions initialState in
  attemptCount (snd run) = 1%nat
  /\ (forall v, alwaysRejects (PlainError "Fail" []) 0%nat = Resolved v ->
                fst run = Resolved v)
  /\ (forall e, alwaysRejects (PlainError "Fail" []) 0%nat = Rejected e ->
      instanceofCockatielBulkheadRejectedError e = false ->
      instanceofCockatielTimeoutError e = false ->
      instanceofError e && JsString.includes (message e) "retry" = false ->
      fst run = Rejected e).
Proof.
  exact (no_policy_pass_through neverExpires zeroDraws
           (alwaysRejects (PlainError "Fail" [])) noOptions initialState
           eq_refl eq_refl eq_refl eq_refl).
Defined.

(** X12: early success.  With a retry configuration alone, an operation that
    fails [k] times, [k] below [attempts], with errors the filter accepts and
    then succeeds is invoked [k + 1] times; the wrapped function resolves
    with its value and reports a success with [k + 1] attempts. *)
Theorem early_success (timeoutExecutor : Z -> list Event -> IPolicy)
    (random : nat -> N) (fn : nat -> Outcome) (options : ResilienceOptions)
    (r : RetryOptions) (k : nat) (v : JsVal) (s : State) :
  retry options = Some r ->
  bulkhead options = None ->
  timeout options = None ->
  Z.of_nat k < attempts r ?? RETRY_DEFAULTS.attempts ->
  (forall i, (i < k)%nat ->
             exists e, fn i = Rejected e
                       /\ (shouldRetry r ?? isRetryableError) e = true) ->
  fn k = Resolved v ->
  let run := withResilience timeoutExecutor random fn options s in
  fst run = Resolved v
  /\ attemptCount (snd run) = S k
  /\ exists before,
       trace (snd run) = (before ++ successReport options (S k))%list.
Proof.
  intros R B T L F V run. unfold run, withResilience.
  rewrite (retry_only_policy _ _ _ _ R B T).
  set (policy := createRetryPolicy random (retryPolicyConfig options r)).
  destruct (retryLoop_early_success
              (rp_shouldRetry (retryPolicyConfig options r))
              (backoffGenerator (retryPolicyConfig options r))
              (retryListeners (retryPolicyConfig options r)) random fn v k
              (Z.to_nat (rp_attempts (retryPolicyConfig options r) - 1)) 1
              (startCall s)) as (s' & E & A).
  - simpl rp_attempts. lia.
  - intros i Hi. exact (F i Hi).
  - exact V.
  - change (policy (executeWithTracking fn) (startCall s) = (Resolved v, s')) in E.
    simpl in A.
    rewrite (wrapped_resolved fn options policy s s' v E). simpl.
    rewrite A. repeat split. eexists. reflexivity.
Qed.

Lemma early_success_witness :
  let fn := fun k => match k with
                     | 0%nat => Rejected (createHttpError 500)
                     | 1%nat => Rejected (createHttpError 503)
                     | _ => Resolved successValue
                     end in
  let run := withResilience neverExpires zeroDraws fn (retryOnlyOptions 3)
               initialState in
  fst run = Resolved successValue
  /\ attemptCount (snd run) = 3%nat
  /\ exists before,
       trace (snd run) = (before ++ successReport (retryOnlyOptions 3) 3)%list.
Proof.
  refine (early_success neverExpires zeroDraws _ (retryOnlyOptions 3)
            (retryWithAttempts 3) 2 successValue initialState
            eq_refl eq_refl eq_refl _ _ eq_refl).
  - simpl. lia.
  - intros [|[|i]] Hi; [eexists; split; reflexivity ..|lia].
Defined.

(** ** The logger *)

Module LoggerFacts.
Import Logger.

Lemma hasKey_app (key : string) (a b : Props) :
  hasKey key (a ++ b)%list = hasKey key a || hasKey key b.
Proof.
  induction a as [|[k v] a IH]; simpl; [reflexivity|].
  destruct (String.eqb key k); [reflexivity | exact IH].
Qed.

Lemma getKey_app (key : string) (a b : Props) :
  getKey key (a ++ b)%list = if hasKey key a then getKey key a else getKey key b.
Proof.
  induction a as [|[k v] a IH]; simpl; [reflexivity|].
  destruct (String.eqb key k); [reflexivity | exact IH].
Qed.

Lemma getKey_absent (key : string) (a : Props) :
  hasKey key a = false -> getKey key a = PUndefined.
Proof.
  induction a as [|[k v] a IH]; simpl; [reflexivity|].
  destruct (String.eqb key k); [discriminate | exact IH].
Qed.

Lemma hasKey_overwritten (key : string) (a b : Props) :
  hasKey key
    (map (fun entry : string * PropVal =>
            (fst entry, if hasKey (fst entry) b then getKey (fst entry) b
                        else snd entry)) a)
  = hasKey key a.
Proof.
  induction a as [|[k v] a IH]; simpl; [reflexivity|].
  destruct (String.eqb key k); [reflexivity | exact IH].
Qed.

Lemma getKey_overwritten (key : string) (a b : Props) :
  hasKey key a = true ->
  getKey key
    (map (fun entry : string * PropVal =>
            (fst entry, if hasKey (fst entry) b then getKey (fst entry) b
                        else snd entry)) a)
  = if hasKey key b then getKey key b else getKey key a.
Proof.
  induction a as [|[k v] a IH]; simpl; [discriminate|].
  destruct (String.eqb_spec key k) as [->|N]; [reflexivity | exact IH].
Qed.

Lemma hasKey_others (key : string) (a b : Props) :
  hasKey key a = false ->
  hasKey key (filter (fun entry : string * PropVal => negb (hasKey (fst entry) a)) b)
  = hasKey key b.
Proof.
  intros A. induction b as [|[k v] b IH]; simpl; [reflexivity|].
  destruct (String.eqb_spec key k) as [->|N].
  - rewrite A. simpl. now rewrite String.eqb_refl.
  - destruct (hasKey k a); simpl; [exact IH|].
    destruct (String.eqb_spec key k); [contradiction | exact IH].
Qed.

Lemma getKey_others (key : string) (a b : Props) :
  hasKey key a = false ->
  getKey key (filter (fun entry : string * PropVal => negb (hasKey (fst entry) a)) b)
  = getKey key b.
Proof.
  intros A. induction b as [|[k v] b IH]; simpl; [reflexivity|].
  destruct (String.eqb_spec key k) as [->|N].
  - rewrite A. simpl. now rewrite String.eqb_refl.
  - destruct (hasKey k a); simpl; [exact IH|].
    destruct (String.eqb_spec key k); [contradiction | exact IH].
Qed.

(** [key in { ...a, ...b }] *)
Lemma hasKey_spread (key : string) (a b : LogMeta) :
  hasKey key (spread a b) = hasKey key a || hasKey key b.
Proof.
  unfold spread. rewrite hasKey_app, hasKey_overwritten.
  destruct (hasKey key a) eqn:A; [reflexivity|]. simpl.
  now apply hasKey_others.
Qed.

(** [{ ...a, ...b }[key]]: the value of [b] where [b] has the key. *)
Lemma getKey_spread (key : string) (a b : LogMeta) :
  getKey key (spread a b) = if hasKey key b then getKey key b else getKey key a.
Proof.
  unfold spread. rewrite getKey_app, hasKey_overwritten.
  destruct (hasKey key a) eqn:A.
  - now apply getKey_overwritten.
  - rewrite (getKey_others key a b A).
    destruct (hasKey key b) eqn:B; [reflexivity|].
    now rewrite (getKey_absent key a A), (getKey_absent key b B).
Qed.

Lemma spread_empty (a : LogMeta) : spread a [] = a.
Proof.
  unfold spread. simpl. rewrite app_nil_r.
  induction a as [|[k v] a IH]; simpl; [reflexivity | now rewrite IH].
Qed.

Lemma overwrite_others (x a b : Props) :
  map (fun entry : string * PropVal =>
         (fst entry, if hasKey (fst entry) b then getKey (fst entry) b
                     else snd entry))
    (filter (fun entry : string * PropVal => negb (hasKey (fst entry) x)) a)
  = filter (fun entry : string * PropVal => negb (hasKey (fst entry) x))
      (map (fun entry : string * PropVal =>
              (fst entry, if hasKey (fst entry) b then getKey (fst entry) b
                          else snd entry)) a).
Proof.
  induction a as [|[k v] a IH]; simpl; [reflexivity|].
  destruct (hasKey k x); simpl; now rewrite IH.
Qed.

Lemma others_of_both (x a b : Props) :
  filter (fun entry : string * PropVal => negb (hasKey (fst entry) (spread x a))) b
  = filter (fun entry : string * PropVal => negb (hasKey (fst entry) x))
      (filter (fun entry : string * PropVal => negb (hasKey (fst entry) a)) b).
Proof.
  induction b as [|[k v] b IH]; simpl; [reflexivity|].
  rewrite hasKey_spread.
  destruct (hasKey k a); simpl.
  - rewrite Bool.orb_true_r. simpl. exact IH.
  - rewrite Bool.orb_false_r. destruct (hasKey k x); simpl; now rewrite IH.
Qed.

(** [{ ...{ ...x, ...a }, ...b }] and [{ ...x, ...{ ...a, ...b } }] are the
    same object, key order included. *)
Lemma spread_assoc (x a b : LogMeta) :
  spread (spread x a) b = spread x (spread a b).
Proof.
  unfold spread at 1. rewrite others_of_both.
  remember (spread a b) as ab eqn:E.
  unfold spread.
  rewrite map_app, map_map, overwrite_others, <- app_assoc, <- filter_app.
  f_equal.
  - apply map_ext. intros [k v]. simpl. subst ab.
    rewrite hasKey_spread, getKey_spread.
    destruct (hasKey k b); [now rewrite Bool.orb_true_r|].
    rewrite Bool.orb_false_r. reflexivity.
  - subst ab. reflexivity.
Qed.

Lemma log_emits (logger : Logger) (messageLevel : LogLevel) (message : string)
    (meta : option LogMeta) :
  LOG_LEVEL_VALUES (loggerLevel logger) <= LOG_LEVEL_VALUES messageLevel ->
  log logger messageLevel message meta
  = [{| callTransport := loggerTransport logger;
        callLevel := messageLevel;
        callName := loggerName logger;
        callMessage := message;
        callMeta := spreadOptional (loggerBindings logger) meta;
        callTimestamp := loggerTimestamp logger |}].
Proof.
  intros L. unfold log, shouldLog.
  destruct (Z.geb_spec (LOG_LEVEL_VALUES messageLevel)
              (LOG_LEVEL_VALUES (loggerLevel logger))); [reflexivity | lia].
Qed.

Lemma log_drops (logger : Logger) (messageLevel : LogLevel) (message : string)
    (meta : option LogMeta) :
  LOG_LEVEL_VALUES messageLevel < LOG_LEVEL_VALUES (loggerLevel logger) ->
  log logger messageLevel message meta = [].
Proof.
  intros L. unfold log, shouldLog.
  destruct (Z.geb_spec (LOG_LEVEL_VALUES messageLevel)
              (LOG_LEVEL_VALUES (loggerLevel logger))); [lia | reflexivity].
Qed.

Lemma method_below_silent (messageLevel : LogLevel) :
  In messageLevel messageLevels -> LOG_LEVEL_VALUES messageLevel < 4.
Proof.
  unfold messageLevels. simpl.
  intros [<-|[<-|[<-|[<-|[]]]]]; simpl; lia.
Qed.

(** X13: level filtering.  Each of the four methods calls the transport at
    most once; a logger of level [silent] never calls it; a message that a
    logger lets through is let through by every logger of the same or a lower
    level, and so is every message of the same or a higher level; [error] is
    dropped by the silent logger alone. *)
Theorem level_filtering (logger : Logger) (messageLevel : LogLevel)
    (message : string) (meta : option LogMeta) :
  In messageLevel messageLevels ->
  (List.length (log logger messageLevel message meta) <= 1)%nat
  /\ (loggerLevel logger = Silent -> log logger messageLevel message meta = [])
  /\ (log logger messageLevel message meta <> [] ->
      forall (other : Logger) (higher : LogLevel) (message' : string)
             (meta' : option LogMeta),
        LOG_LEVEL_VALUES (loggerLevel other) <= LOG_LEVEL_VALUES (loggerLevel logger) ->
        LOG_LEVEL_VALUES messageLevel <= LOG_LEVEL_VALUES higher ->
        log other higher message' meta' <> [])
  /\ (error logger message meta = [] <-> loggerLevel logger = Silent).
Proof.
  intros M. pose proof (method_below_silent messageLevel M) as B.
  repeat split.
  - unfold log. destruct (negb _); simpl; lia.
  - intros S. apply log_drops. rewrite S. exact B.
  - intros E other higher message' meta' O H.
    destruct (Z.lt_ge_cases (LOG_LEVEL_VALUES messageLevel)
                (LOG_LEVEL_VALUES (loggerLevel logger))) as [D|D].
    + now rewrite (log_drops logger messageLevel message meta D) in E.
    + rewrite log_emits by lia. discriminate.
  - unfold error. intros E.
    destruct (loggerLevel logger) eqn:L; try reflexivity;
      rewrite log_emits in E by (rewrite L; simpl; lia); discriminate E.
  - intros S. unfold error. apply log_drops. rewrite S. simpl. lia.
Qed.

Lemma level_filtering_witness :
  let logger := createLoggerImpl "svc" Warn Console true [] in
  (List.length (log logger Error "failed" None) <= 1)%nat
  /\ (loggerLevel logger = Silent -> log logger Error "failed" None = [])
  /\ (log logger Error "failed" None <> [] ->
      forall (other : Logger) (higher : LogLevel) (message' : string)
             (meta' : option LogMeta),
        LOG_LEVEL_VALUES (loggerLevel other) <= LOG_LEVEL_VALUES (loggerLevel logger) ->
        LOG_LEVEL_VALUES Error <= LOG_LEVEL_VALUES higher ->
        log other higher message' meta' <> [])
  /\ (error logger "failed" None = [] <-> loggerLevel logger = Silent).
Proof.
  apply (level_filtering (createLoggerImpl "svc" Warn Console true []) Error
           "failed" None).
  simpl. tauto.
Defined.

(** X14: a child logger filters as its parent does and passes the parent's
    name, transport and timestamp flag on; in the object the transport
    receives, a key of the call's own [meta] wins over the child's bindings,
    and a key of the child's bindings over the parent's. *)
Theorem child_meta_precedence (logger : Logger) (childBindings : LogMeta)
    (messageLevel : LogLevel) (message : string) (meta : option LogMeta) :
  (log (child logger childBindings) messageLevel message meta = []
   <-> log logger messageLevel message meta = [])
  /\ forall call : TransportCall,
       In call (log (child logger childBindings) messageLevel message meta) ->
       callName call = loggerName logger
       /\ callTransport call = loggerTransport logger
       /\ callTimestamp call = loggerTimestamp logger
       /\ callLevel call = messageLevel
       /\ callMessage call = message
       /\ forall key : string,
            hasKey key (callMeta call)
            = hasKey key (loggerBindings logger) || hasKey key childBindings
              || hasKey key (meta ?? [])
            /\ getKey key (callMeta call)
               = if hasKey key (meta ?? []) then getKey key (meta ?? [])
                 else if hasKey key childBindings then getKey key childBindings
                 else getKey key (loggerBindings logger).
Proof.
  split.
  - unfold log, child, createLoggerImpl. simpl.
    destruct (negb (shouldLog (loggerLevel logger) messageLevel));
      split; intros E; try reflexivity; discriminate E.
  - intros call I. unfold log, child, createLoggerImpl in I. simpl in I.
    destruct (negb (shouldLog (loggerLevel logger) messageLevel)); [destruct I|].
    destruct I as [<-|[]]. simpl. repeat split.
    + destruct meta as [m|]; simpl; now rewrite !hasKey_spread.
    + destruct meta as [m|]; simpl; now rewrite !getKey_spread.
Qed.

Lemma child_meta_precedence_witness :
  let parent :=
    createLoggerImpl "svc" Debug Json true
      [("service", PString "api"); ("requestId", PString "parent")] in
  let childBindings := [("requestId", PString "child"); ("userId", PNumber 7)] in
  let meta := Some [("userId", PNumber 9)] in
  (log (child parent childBindings) Info "hello" meta = []
   <-> log parent Info "hello" meta = [])
  /\ forall call : TransportCall,
       In call (log (child parent childBindings) Info "hello" meta) ->
       callName call = loggerName parent
       /\ callTransport call = loggerTransport parent
       /\ callTimestamp call = loggerTimestamp parent
       /\ callLevel call = Info
       /\ callMessage call = "hello"
       /\ forall key : string,
            hasKey key (callMeta call)
            = hasKey key (loggerBindings parent) || hasKey key childBindings
              || hasKey key (meta ?? [])
            /\ getKey key (callMeta call)
               = if hasKey key (meta ?? []) then getKey key (meta ?? [])
                 else if hasKey key childBindings then getKey key childBindings
                 else getKey key (loggerBindings parent).
Proof.
  exact (child_meta_precedence
           (createLoggerImpl "svc" Debug Json true
              [("service", PString "api"); ("requestId", PString "parent")])
           [("requestId", PString "child"); ("userId", PNumber 7)]
           Info "hello" (Some [("userId", PNumber 9)])).
Defined.

(** X15: a child of a child is the child made in one step from the two
    bindings spread together, the later bindings winning; a child with no
    bindings and a call with no [meta] or an empty one change nothing. *)
Theorem child_of_child (logger : Logger) (first second : LogMeta)
    (messageLevel : LogLevel) (message : string) :
  child (child logger first) second = child logger (spread first second)
  /\ child logger [] = logger
  /\ log logger messageLevel message (Some []) = log logger messageLevel message None
  /\ forall meta : LogMeta,
       log (child logger first) messageLevel message (Some meta)
       = log logger messageLevel message (Some (spread first meta)).
Proof.
  repeat split.
  - unfold child, createLoggerImpl. simpl. now rewrite spread_assoc.
  - unfold child, createLoggerImpl. rewrite spread_empty. now destruct logger.
  - intros meta. unfold log, child, createLoggerImpl. simpl.
    now rewrite spread_assoc.
Qed.

(** X16: a logger made without options follows [NODE_ENV]: under [test] none
    of the four methods reaches a transport; under [production] [debug] is
    dropped and the other three go to the JSON transport; under any other
    value, or none, all four go to the console transport. *)
Theorem default_logger_by_environment (name : string) (NODE_ENV : option string)
    (messageLevel : LogLevel) (message : string) (meta : option LogMeta) :
  In messageLevel messageLevels ->
  let logger :=
    createLogger name
      {| level := None; format := None; timestamp := None; bindings := None |}
      NODE_ENV None in
  (NODE_ENV = Some "test" -> log logger messageLevel message meta = [])
  /\ (NODE_ENV = Some "production" ->
      debug logger message meta = []
      /\ (messageLevel <> Debug ->
          exists call, log logger messageLevel message meta = [call]
                       /\ callTransport call = Json
                       /\ callTimestamp call = true
                       /\ callMeta call = meta ?? []))
  /\ (NODE_ENV <> Some "test" -> NODE_ENV <> Some "production" ->
      exists call, log logger messageLevel message meta = [call]
                   /\ callTransport call = Console
                   /\ callTimestamp call = true
                   /\ callMeta call = meta ?? []).
Proof.
  intros M logger.
  assert (Meta : spreadOptional [] meta = meta ?? []).
  { destruct meta as [m|]; simpl; [|reflexivity].
    unfold spread. simpl. induction m as [|[k v] m IH]; simpl; congruence. }
  pose proof (method_below_silent messageLevel M) as B.
  split; [|split].
  - intros ->. apply log_drops. simpl. exact B.
  - intros ->. split; [reflexivity|].
    intros D. subst logger. eexists. split; [apply log_emits|].
    + simpl. destruct messageLevel; simpl; try lia. now contradiction D.
    + simpl. repeat split. exact Meta.
  - intros T P. eexists. split; [apply log_emits|].
    + subst logger. unfold createLogger, getGlobalLogLevel, getDefaultLevel.
      simpl. destruct NODE_ENV as [env|]; simpl.
      * destruct (String.eqb_spec env "production") as [->|_]; [now contradiction P|].
        destruct (String.eqb_spec env "test") as [->|_]; [now contradiction T|].
        simpl. destruct messageLevel; simpl; lia.
      * destruct messageLevel; simpl; lia.
    + subst logger. unfold createLogger, getDefaultFormat. simpl.
      repeat split; [|exact Meta].
      destruct NODE_ENV as [env|]; simpl; [|reflexivity].
      destruct (String.eqb_spec env "production") as [->|_];
        [now contradiction P | reflexivity].
Qed.

Lemma default_logger_by_environment_witness :
  let logger :=
    createLogger "svc"
      {| level := None; format := None; timestamp := None; bindings := None |}
      (Some "production") None in
  (Some "production" = Some "test" -> log logger Warn "slow" None = [])
  /\ (Some "production" = Some "production" ->
      debug logger "slow" None = []
      /\ (Warn <> Debug ->
          exists call, log logger Warn "slow" None = [call]
                       /\ callTransport call = Json
                       /\ callTimestamp call = true
                       /\ callMeta call = None ?? []))
  /\ (Some "production" <> Some "test" -> Some "production" <> Some "production" ->
      exists call, log logger Warn "slow" None = [call]
                   /\ callTransport call = Console
                   /\ callTimestamp call = true
                   /\ callMeta call = None ?? []).
Proof.
  apply (default_logger_by_environment "svc" (Some "production") Warn "slow" None).
  simpl. tauto.
Defined.

(** X17: where a new logger takes its level from: [options.level] if given,
    whatever the global level and [NODE_ENV]; else the level last set with
    [setGlobalLogLevel]; after [resetGlobalLogLevel], and before any call of
    [setGlobalLogLevel], the default for [NODE_ENV]. *)
Theorem level_precedence (name : string) (options : LoggerOptions)
    (NODE_ENV : option string) (globalDefaultLevel : GlobalLevel)
    (chosen : LogLevel) :
  (forall given, level options = Some given ->
     loggerLevel (createLogger name options NODE_ENV globalDefaultLevel) = given)
  /\ (level options = None ->
      loggerLevel (createLogger name options NODE_ENV
                     (setGlobalLogLevel chosen globalDefaultLevel)) = chosen
      /\ getGlobalLogLevel NODE_ENV (setGlobalLogLevel chosen globalDefaultLevel)
         = chosen
      /\ loggerLevel (createLogger name options NODE_ENV
                        (resetGlobalLogLevel
                           (setGlobalLogLevel chosen globalDefaultLevel)))
         = getDefaultLevel NODE_ENV
      /\ loggerLevel (createLogger name options NODE_ENV None)
         = getDefaultLevel NODE_ENV).
Proof.
  split.
  - intros given L. unfold createLogger. simpl. now rewrite L.
  - intros L. unfold createLogger. simpl. rewrite L. repeat split.
Qed.

Lemma level_precedence_witness :
  let options :=
    {| level := None; format := Some Json; timestamp := None; bindings := None |} in
  (forall given, level options = Some given ->
     loggerLevel (createLogger "svc" options (Some "test") None) = given)
  /\ (level options = None ->
      loggerLevel (createLogger "svc" options (Some "test")
                     (setGlobalLogLevel Warn None)) = Warn
      /\ getGlobalLogLevel (Some "test") (setGlobalLogLevel Warn None) = Warn
      /\ loggerLevel (createLogger "svc" options (Some "test")
                        (resetGlobalLogLevel (setGlobalLogLevel Warn None)))
         = getDefaultLevel (Some "test")
      /\ loggerLevel (createLogger "svc" options (Some "test") None)
         = getDefaultLevel (Some "test")).
Proof.
  exact (level_precedence "svc"
           {| level := None; format := Some Json; timestamp := None;
              bindings := None |} (Some "test") None Warn).
Defined.

End LoggerFacts.

(** ** ai-utils *)

Module AiUtilsFacts.
Import AiUtils.

Lemma length_firstChars (n : nat) (text : string) :
  String.length (firstChars n text) = Nat.min n (String.length text).
Proof.
  revert text. induction n as [|n IH]; intros [|c text]; simpl; auto.
Qed.

Lemma firstChars_prefix (a b : string) :
  firstChars (String.length a) (a ++ b) = a.
Proof.
  induction a as [|c a IH]; simpl.
  - now destruct b.
  - now rewrite IH.
Qed.

Lemma firstChars_whole (n : nat) (text : string) :
  (String.length text <= n)%nat -> firstChars n text = text.
Proof.
  revert text. induction n as [|n IH]; intros [|c text] L; simpl in *;
    try reflexivity; [lia|].
  rewrite IH; [reflexivity | lia].
Qed.

Lemma length_ellipsis (text : string) :
  String.length (text ++ "...") = (String.length text + 3)%nat.
Proof.
  now rewrite TextFacts.length_append.
Qed.

Lemma truncate_room_helper (text : string) :
  text <> "" ->
  exists k : nat,
    truncateToTokenLimit text 0 = firstChars k text ++ "..."
    /\ (k <= String.length text)%nat.
Proof.
  intros N. unfold truncateToTokenLimit.
  assert (P : (0 < String.length text)%nat).
  { destruct text; [contradiction | simpl; lia]. }
  destruct (Z.leb_spec (Z.of_nat (String.length text)) (0 * 4)); [lia|].
  unfold slice0. destruct (Z.ltb_spec (0 * 4 - 3) 0); [|lia].
  eexists. split; [reflexivity | lia].
Qed.

(** X18: with [maxTokens] at least 1 the result has at most [4 * maxTokens]
    characters and never more than the text: a text within the limit comes
    back as it is, a longer one as its first [4 * maxTokens - 3] characters
    and three dots, [4 * maxTokens] characters in all. *)
Theorem truncate_within_limit (text : string) (maxTokens : Z) :
  1 <= maxTokens ->
  let result := truncateToTokenLimit text maxTokens in
  Z.of_nat (String.length result) <= maxTokens * 4
  /\ (String.length result <= String.length text)%nat
  /\ (Z.of_nat (String.length text) <= maxTokens * 4 -> result = text)
  /\ (maxTokens * 4 < Z.of_nat (String.length text) ->
      result = firstChars (Z.to_nat (maxTokens * 4 - 3)) text ++ "..."
      /\ Z.of_nat (String.length result) = maxTokens * 4).
Proof.
  intros M result. subst result. unfold truncateToTokenLimit.
  destruct (Z.leb_spec (Z.of_nat (String.length text)) (maxTokens * 4)) as [L|L].
  - repeat split; try lia.
  - assert (S : slice0 text (maxTokens * 4 - 3)
                = firstChars (Z.to_nat (maxTokens * 4 - 3)) text).
    { unfold slice0.
      destruct (Z.ltb_spec (maxTokens * 4 - 3) 0); [lia|].
      f_equal. lia. }
    rewrite S, length_ellipsis, length_firstChars.
    repeat split; try lia.
Qed.

Lemma truncate_within_limit_witness :
  let result := truncateToTokenLimit "a text of thirty-one characters" 5 in
  Z.of_nat (String.length result) <= 5 * 4
  /\ (String.length result <= String.length "a text of thirty-one characters")%nat
  /\ (Z.of_nat (String.length "a text of thirty-one characters") <= 5 * 4 ->
      result = "a text of thirty-one characters")
  /\ (5 * 4 < Z.of_nat (String.length "a text of thirty-one characters") ->
      result
      = firstChars (Z.to_nat (5 * 4 - 3)) "a text of thirty-one characters" ++ "..."
      /\ Z.of_nat (String.length result) = 5 * 4).
Proof.
  apply (truncate_within_limit "a text of thirty-one characters" 5). lia.
Defined.

(** X19: with [maxTokens] zero or negative every text that is not empty is
    cut, and the three dots alone make the result longer than the limit;
    with [maxTokens] zero a text of one or two characters comes back longer
    than it was. *)
Theorem truncate_without_room (text : string) (maxTokens : Z) :
  maxTokens <= 0 ->
  text <> "" ->
  let result := truncateToTokenLimit text maxTokens in
  result
  = firstChars (Z.to_nat (Z.of_nat (String.length text) + (maxTokens * 4 - 3)))
      text ++ "..."
  /\ maxTokens * 4 < 3 <= Z.of_nat (String.length result)
  /\ (maxTokens = 0 -> (String.length text < 3)%nat ->
      result = "..." /\ (String.length text < String.length result)%nat).
Proof.
  intros M N result. subst result. unfold truncateToTokenLimit.
  assert (P : (0 < String.length text)%nat).
  { destruct text; [contradiction | simpl; lia]. }
  destruct (Z.leb_spec (Z.of_nat (String.length text)) (maxTokens * 4)); [lia|].
  assert (S : slice0 text (maxTokens * 4 - 3)
              = firstChars
                  (Z.to_nat (Z.of_nat (String.length text) + (maxTokens * 4 - 3)))
                  text).
  { unfold slice0.
    destruct (Z.ltb_spec (maxTokens * 4 - 3) 0); [|lia].
    f_equal. lia. }
  rewrite S, length_ellipsis. repeat split; try lia.
  - subst maxTokens.
    replace (Z.to_nat (Z.of_nat (String.length text) + (0 * 4 - 3))) with 0%nat
      by lia.
    now destruct text.
Qed.

Lemma truncate_without_room_witness :
  let result := truncateToTokenLimit "ab" 0 in
  result = firstChars (Z.to_nat (Z.of_nat (String.length "ab") + (0 * 4 - 3))) "ab"
           ++ "..."
  /\ 0 * 4 < 3 <= Z.of_nat (String.length result)
  /\ (0 = 0 -> (String.length "ab" < 3)%nat ->
      result = "..." /\ (String.length "ab" < String.length result)%nat).
Proof.
  apply (truncate_without_room "ab" 0); [lia | discriminate].
Defined.

(** X20: truncating twice with the same [maxTokens], zero or more, is
    truncating once. *)
Theorem truncate_twice (text : string) (maxTokens : Z) :
  0 <= maxTokens ->
  truncateToTokenLimit (truncateToTokenLimit text maxTokens) maxTokens
  = truncateToTokenLimit text maxTokens.
Proof.
  intros M.
  destruct (Z.leb_spec (Z.of_nat (String.length text)) (maxTokens * 4)) as [L|L].
  - unfold truncateToTokenLimit.
    destruct (Z.leb_spec (Z.of_nat (String.length text)) (maxTokens * 4)); [|lia].
    destruct (Z.leb_spec (Z.of_nat (String.length text)) (maxTokens * 4)); [|lia].
    reflexivity.
  - destruct (Z.eq_dec maxTokens 0) as [->|NZ].
    + assert (N : text <> "") by (destruct text; [simpl in L; lia | discriminate]).
      destruct (truncate_room_helper text N) as (k & E & K).
      rewrite E.
      unfold truncateToTokenLimit at 1. rewrite length_ellipsis.
      destruct (Z.leb_spec (Z.of_nat (String.length (firstChars k text) + 3)) (0 * 4));
        [lia|].
      unfold slice0. rewrite length_ellipsis.
      destruct (Z.ltb_spec (0 * 4 - 3) 0); [|lia].
      rewrite length_firstChars.
      replace (Z.to_nat (Z.max (Z.of_nat (Nat.min k (String.length text) + 3)
                                + (0 * 4 - 3)) 0))
        with (String.length (firstChars k text))
        by (rewrite length_firstChars; lia).
      now rewrite firstChars_prefix.
    + unfold truncateToTokenLimit at 1.
      destruct (Z.leb_spec
                  (Z.of_nat (String.length (truncateToTokenLimit text maxTokens)))
                  (maxTokens * 4)) as [_|G]; [reflexivity|].
      exfalso. revert G. unfold truncateToTokenLimit.
      destruct (Z.leb_spec (Z.of_nat (String.length text)) (maxTokens * 4)); [lia|].
      unfold slice0. destruct (Z.ltb_spec (maxTokens * 4 - 3) 0); [lia|].
      rewrite length_ellipsis, length_firstChars. lia.
Qed.

Lemma truncate_twice_witness :
  truncateToTokenLimit (truncateToTokenLimit "abcdefghij" 2) 2
  = truncateToTokenLimit "abcdefghij" 2.
Proof.
  apply (truncate_twice "abcdefghij" 2). lia.
Defined.

End AiUtilsFacts.

(** ** Instances of the lemmas on the fallback and on the delays *)

Lemma always_failing_uses_fallback_witness :
  let run :=
    withResilience neverExpires zeroDraws (alwaysRejects (createHttpError 500))
      guestFallbackOptions initialState in
  fst run = Resolved (VPlain (PString "Guest"))
  /\ (Forall notFailure (trace initialState) ->
      Forall notFailure (trace (snd run))).
Proof.
  refine (always_failing_uses_fallback neverExpires zeroDraws
            (alwaysRejects (createHttpError 500)) guestFallbackOptions
            (PString "Guest") initialState _ eq_refl _ eq_refl eq_refl).
  - intros k. exists (createHttpError 500). reflexivity.
  - discriminate.
Defined.

Lemma emitted_retry_delays_capped_witness :
  Forall (delayCapped 100%N)
    (trace (snd (Cockatiel.retryLoop isRetryableError
                   (backoffGenerator cappedBackoff)
                   (retryListeners cappedBackoff) zeroDraws 4 1
                   (executeWithTracking (alwaysRejects (createHttpError 500)))
                   initialState))).
Proof.
  refine (emitted_retry_delays_capped cappedBackoff zeroDraws
            (alwaysRejects (createHttpError 500)) _ 4%nat 1%nat initialState _).
  - simpl. lia.
  - simpl. constructor.
Defined.
